(** * iRacing endurance stints: a model of [streamlit_app.py]

    The application keeps one document in a MongoDB collection: a mapping
    from team names to teams.  A team has a race configuration, a table of
    pilots (one row per pilot, one checkbox column per race hour) and a
    schedule ([horario]) with one slot per race hour.  Every button of the
    page is a handler that reads the session state and the store and writes
    them back.  The definitions below follow the source handler by handler;
    pandas tables are modelled by the operations the source applies to them
    (column selection, comparison against a scalar, boolean indexing,
    [.iloc[0]], [.empty], [to_dict('records')]). *)

From stdpp Require Import gmap strings list fin_maps pretty sorting.

#[local] Open Scope Z_scope.
#[local] Open Scope nat_scope.

(** ** Cells, rows and tables *)

(** A value of a checkbox column.  [PyNone] is Python's [None]; [NaN] is the
    float pandas puts where a record has no entry for a column of the table. *)
Inductive cell : Type :=
  | Bool (b : bool)
  | PyNone
  | NaN.

#[global] Instance cell_eq_dec : EqDecision cell.
Proof. solve_decision. Defined.

(** Python's truth value of a cell: [not c] is [negb (truth c)].  [None] is
    false, a NaN float is true. *)
Definition truth (c : cell) : bool :=
  match c with
  | Bool b => b
  | PyNone => false
  | NaN => true
  end.

(** The comparison [c == True], as pandas evaluates it element by element. *)
Definition eq_True (c : cell) : bool :=
  match c with
  | Bool b => b
  | PyNone | NaN => false
  end.

(** One record of the pilots table: the four named columns and the cells of
    the hour columns, keyed by column name.  [Horas_Limite] is the column
    'Horas Límite (Opcional)': a number, or blank ([None], a NaN with which
    every comparison is false). *)
Record PilotRow : Type := mkPilotRow {
  Piloto : string;
  Quiere_Empezar : cell;
  Quiere_Terminar : cell;
  Horas_Limite : option Z;
  horas : gmap string cell
}.

(** A pilots table: the names of its hour columns and its rows.  The cell of
    row [r] in column [c] is [horas r !! c], or NaN when the record has no
    entry there. *)
Record DataFrame : Type := mkDataFrame {
  columns : list string;
  rows : list PilotRow
}.

Definition cell_at (c : string) (r : PilotRow) : cell :=
  default NaN (horas r !! c).

(** [df[c]] for an hour column: [None] is the KeyError of a missing column. *)
Definition column (df : DataFrame) (c : string) : option (list cell) :=
  if decide (c ∈ columns df) then Some (cell_at c <$> rows df) else None.

(** [l[mask]]: the elements at the positions where the mask is true. *)
Fixpoint select {A : Type} (mask : list bool) (l : list A) : list A :=
  match mask, l with
  | b :: mask', x :: l' => if b then x :: select mask' l' else select mask' l'
  | _, _ => []
  end.

(** [df[mask]]. *)
Definition boolean_index (df : DataFrame) (mask : list bool) : DataFrame :=
  {| columns := columns df; rows := select mask (rows df) |}.

(** [df.empty]. *)
Definition empty_frame (df : DataFrame) : bool :=
  match rows df with
  | [] => true
  | _ :: _ => false
  end.

(** [pd.DataFrame(records)]: the hour columns are the keys of the records. *)
Definition DataFrame_of_records (records : list PilotRow) : DataFrame :=
  {| columns := remove_dups (records ≫= λ r, (map_to_list (horas r)).*1);
     rows := records |}.

(** [df.to_dict('records')]: every record has an entry for every column. *)
Definition to_dict_records (df : DataFrame) : list PilotRow :=
  (λ r, {| Piloto := Piloto r;
           Quiere_Empezar := Quiere_Empezar r;
           Quiere_Terminar := Quiere_Terminar r;
           Horas_Limite := Horas_Limite r;
           horas := list_to_map ((λ c, (c, cell_at c r)) <$> columns df) |})
  <$> rows df.

(** [pd.DataFrame({...})] from columns: pandas raises ValueError unless all
    columns have the same length. *)
Definition DataFrame_of_columns
    (piloto : list string) (empezar terminar : list cell)
    (limite : list (option Z)) (hour_columns : list (string * list cell))
    : option DataFrame :=
  let n := length piloto in
  if bool_decide (length empezar = n ∧ length terminar = n ∧ length limite = n
                  ∧ Forall (λ cv, length cv.2 = n) hour_columns)
  then Some {| columns := hour_columns.*1;
               rows := imap (λ k name,
                 {| Piloto := name;
                    Quiere_Empezar := nth k empezar NaN;
                    Quiere_Terminar := nth k terminar NaN;
                    Horas_Limite := nth k limite None;
                    horas := list_to_map
                      ((λ cv, (cv.1, nth k cv.2 NaN)) <$> hour_columns) |})
                 piloto |}
  else None.

(** ** The schedule and the team *)

Definition Sin_Asignar : string := "Sin Asignar".

(** One slot of the schedule: the keys 'Piloto al Volante' and 'Comentarios'. *)
Record Stint : Type := mkStint {
  Piloto_al_Volante : string;
  Comentarios : string
}.

#[global] Instance Stint_eq_dec : EqDecision Stint.
Proof. solve_decision. Defined.

Definition set_Piloto_al_Volante (p : string) (s : Stint) : Stint :=
  {| Piloto_al_Volante := p; Comentarios := Comentarios s |}.

Definition set_Comentarios (c : string) (s : Stint) : Stint :=
  {| Piloto_al_Volante := Piloto_al_Volante s; Comentarios := c |}.

(** The schedule table built from its two columns. *)
Definition horario_of_columns (piloto comentarios : list string)
    : option (list Stint) :=
  if bool_decide (length piloto = length comentarios)
  then Some (zip_with mkStint piloto comentarios)
  else None.

Record RaceConfig : Type := mkRaceConfig {
  start_hour : Z;
  duration : nat
}.

Record Team : Type := mkTeam {
  race_config : RaceConfig;
  pilots : list PilotRow;
  horario : list Stint
}.

(** [str(h)], the stored name of the column of hour [h]. *)
Definition str (h : nat) : string := pretty h.

(** [get_default_team_structure] (lines 24-39). *)
Definition get_default_team_structure (team_name : string) (duration : nat)
    : option Team :=
  df ← DataFrame_of_columns
         ["Piloto 1"; "Piloto 2"; "Piloto 3"; "Piloto 4"]
         [Bool false; Bool true; Bool false; Bool false]
         [Bool false; Bool false; Bool true; Bool false]
         [Some 0%Z; Some 0%Z; Some 0%Z; Some 0%Z]
         ((λ h, (str h, replicate 4 (Bool true))) <$> seq 0 duration);
  h ← horario_of_columns (replicate duration Sin_Asignar)
                          (replicate duration "");
  Some {| race_config := {| start_hour := 14; duration := duration |};
          pilots := to_dict_records df;
          horario := h |}.

Arguments get_default_team_structure : simpl never.

(** The durations offered when a team is created (line 101). *)
Definition allowed_durations : list nat := [24; 12; 10; 8; 6; 4; 3].

(** ** The store and the session *)

(** Calls made on the MongoDB collection. *)
Inductive Event : Type :=
  | Find_one
  | Insert_one (data : gmap string Team)
  | Update_one (data : gmap string Team).

(** The state a handler runs in: the 'data' field of the stored document
    ([None] while the collection has no document), the calls made on the
    collection so far (oldest first), and the Streamlit session state. *)
Record State : Type := mkState {
  store : option (gmap string Team);
  events : list Event;
  db : gmap string Team;
  selected_team : option string;
  newly_created_team : option string
}.

(** A handler is a computation on the state that may raise: the result
    [None] is an uncaught Python exception, after which the state is the one
    reached when it was raised. *)
Definition M (A : Type) : Type := State → option A * State.

#[global] Instance M_ret : MRet M := λ A a s, (Some a, s).

#[global] Instance M_bind : MBind M := λ A B f m s,
  match m s with
  | (Some a, s') => f a s'
  | (None, s') => (None, s')
  end.

(** Raise when a lookup or a constructor fails. *)
Definition lift {A : Type} (o : option A) : M A := λ s, (o, s).

Definition get_db : M (gmap string Team) := λ s, (Some (db s), s).

Definition set_db (d : gmap string Team) : M unit := λ s,
  (Some (), {| store := store s; events := events s; db := d;
               selected_team := selected_team s;
               newly_created_team := newly_created_team s |}).

Definition set_newly_created_team (t : option string) : M unit := λ s,
  (Some (), {| store := store s; events := events s; db := db s;
               selected_team := selected_team s;
               newly_created_team := t |}).

Definition collection (e : Event) (st : option (gmap string Team))
    (s : State) : State :=
  {| store := st; events := events s ++ [e]; db := db s;
     selected_team := selected_team s;
     newly_created_team := newly_created_team s |}.

(** [collection.find_one({"_id": "main_database"})]. *)
Definition find_one : M (option (gmap string Team)) := λ s,
  (Some (store s), collection Find_one (store s) s).

(** [collection.insert_one]: a second document with the same id is an error. *)
Definition insert_one (data : gmap string Team) : M unit := λ s,
  match store s with
  | None => (Some (), collection (Insert_one data) (Some data) s)
  | Some _ => (None, s)
  end.

(** [collection.update_one(..., {"$set": {"data": data}}, upsert=True)]. *)
Definition update_one (data : gmap string Team) : M unit := λ s,
  (Some (), collection (Update_one data) (Some data) s).

(** [load_data] (lines 46-54). *)
Definition load_data : M (gmap string Team) :=
  stored_data ← find_one;
  match stored_data with
  | None =>
      t ← lift (get_default_team_structure "Equipo por Defecto" 24);
      let default_data : gmap string Team := {[ "Equipo por Defecto" := t ]} in
      insert_one default_data;;
      mret default_data
  | Some data => mret data
  end.

(** [save_data] (lines 56-59). *)
Definition save_data (data : gmap string Team) : M unit := update_one data.

(** What a pass over the page ends with: [st.rerun()], an [st.error]
    message, [st.stop()], or nothing (the script goes on rendering). *)
Inductive Outcome : Type := Rerun | Error_message | Stop | Continue.

(** *** Team management (lines 95-128) *)

(** The button 'Crear Equipo'. *)
Definition crear_equipo (new_team_name : string) (new_team_duration : nat)
    : M Outcome :=
  session_db ← get_db;
  if bool_decide (new_team_name ≠ "")
     && bool_decide (session_db !! new_team_name = None)
  then
    t ← lift (get_default_team_structure new_team_name new_team_duration);
    set_db (<[new_team_name := t]> session_db);;
    save_data (<[new_team_name := t]> session_db);;
    d ← load_data;
    set_db d;;
    set_newly_created_team (Some new_team_name);;
    mret Rerun
  else mret Error_message.

(** An assignment to [st.session_state.selected_team] made after the select
    box with [key='selected_team'] (lines 87-93) was created in the same pass
    over the page: Streamlit refuses to modify the state of a widget that
    exists already and raises StreamlitAPIException.  The create handler
    goes through [newly_created_team] (lines 74-76 and 113) instead. *)
Definition set_selected_team_after_widget (t : option string) : M unit :=
  λ s, (None, s).

(** The button 'Eliminar Equipo Seleccionado'; [team_to_delete] is [None]
    while the select box shows its placeholder.  The assignment of line 125
    comes after the select box of the selected team, so an accepted deletion
    writes, reloads and raises there; line 126 is not reached. *)
Definition eliminar_equipo (team_to_delete : option string) : M Outcome :=
  session_db ← get_db;
  match team_to_delete with
  | Some t =>
      if bool_decide (t ≠ "") && bool_decide (1 < size session_db)
      then
        lift (session_db !! t);;
        set_db (delete t session_db);;
        save_data (delete t session_db);;
        d ← load_data;
        set_db d;;
        set_selected_team_after_widget None;;
        mret Rerun
      else mret Error_message
  | None => mret Error_message
  end.

(** *** The selected team (lines 78-81 and 133-148) *)

(** Line 148: [config_df['Piloto']] on the table built from the stored
    records of the team (line 139).  [pd.DataFrame([])] has no column at all,
    so for a team without pilot records the lookup raises KeyError ([None]);
    every record holds the key 'Piloto'. *)
Definition config_df_Piloto (records : list PilotRow) : option (list string) :=
  match records with
  | [] => None
  | _ :: _ => Some (Piloto <$> records)
  end.

(** The rest of the page runs only for a selected team that is a key of the
    session's mapping, and it raises at line 148, before any of its inputs
    and buttons, when that team has no pilot record. *)
Definition with_selected_team (k : string → Team → M Outcome) : M Outcome :=
  λ s,
  match selected_team s with
  | Some name =>
      if bool_decide (name ≠ "")
      then match db s !! name with
           | Some team_data =>
               match config_df_Piloto (pilots team_data) with
               | Some _ => k name team_data s
               | None => (None, s)
               end
           | None => (Some Stop, s)
           end
      else (Some Stop, s)
  | None => (Some Stop, s)
  end.

Definition set_start_hour (h : Z) (t : Team) : Team :=
  {| race_config := {| start_hour := h; duration := duration (race_config t) |};
     pilots := pilots t;
     horario := horario t |}.

(** The start-hour input (lines 168-176). *)
Definition cambiar_hora_de_inicio (new_start_hour : Z) : M Outcome :=
  with_selected_team (λ name team_data,
    if bool_decide (new_start_hour ≠ start_hour (race_config team_data))
    then
      session_db ← get_db;
      set_db (<[name := set_start_hour new_start_hour team_data]> session_db);;
      save_data (<[name := set_start_hour new_start_hour team_data]> session_db);;
      mret Rerun
    else mret Continue).

(** *** Hour labels (lines 190-192 and 206-208) *)

(** The format [:02d]. *)
Definition two_digits (z : Z) : string :=
  let s := pretty z in
  if String.length s <? 2 then "0" +:+ s else s.

(** [dynamic_hour_labels[h]]. *)
Definition hour_label (start_hour : Z) (h : nat) : string :=
  two_digits ((start_hour + Z.of_nat h) `mod` 24) +:+ ":00".

Definition dynamic_hour_labels (start_hour : Z) (race_duration : nat)
    : list string :=
  hour_label start_hour <$> seq 0 race_duration.

(** [reverse_column_map]: from the label shown to the stored column name; of
    two hours with the same label the later one stays. *)
Definition reverse_column_map (start_hour : Z) (race_duration : nat)
    : gmap string string :=
  list_to_map (reverse ((λ h, (hour_label start_hour h, str h))
                          <$> seq 0 race_duration)).

(** [df.rename(columns=m)].  Tables with two columns of the same name are
    outside this model. *)
Definition rename (m : gmap string string) (df : DataFrame) : DataFrame :=
  let f := λ c, default c (m !! c) in
  {| columns := f <$> columns df;
     rows := (λ r, {| Piloto := Piloto r;
                      Quiere_Empezar := Quiere_Empezar r;
                      Quiere_Terminar := Quiere_Terminar r;
                      Horas_Limite := Horas_Limite r;
                      horas := kmap f (horas r) |}) <$> rows df |}.

(** ** Saving the pilots table (lines 204-229) *)

(** [for i in ...: body], where the body updates a value and may raise. *)
Fixpoint for_each {A : Type} (body : nat → A → option A) (range : list nat)
    (acc : A) : option A :=
  match range with
  | [] => Some acc
  | i :: range' => acc' ← body i acc; for_each body range' acc'
  end.

(** [df[df['Piloto'] == name]]. *)
Definition rows_of_pilot (df : DataFrame) (name : string) : DataFrame :=
  boolean_index df ((λ r, bool_decide (Piloto r = name)) <$> rows df).

(** Lines 216-219: the cell that decides whether the pilot of the selected
    rows may drive hour [i].  The loop runs only for [i < race_duration], so
    [race_duration - 1] is the last hour. *)
Definition disponible (piloto_config_row : DataFrame) (i race_duration : nat)
    : option cell :=
  if i =? 0 then head (Quiere_Empezar <$> rows piloto_config_row)
  else if i =? race_duration - 1
       then head (Quiere_Terminar <$> rows piloto_config_row)
       else col ← column piloto_config_row (str i); head col.

(** One pass of the loop of lines 211-222. *)
Definition reconcile_step (df_to_save : DataFrame) (race_duration : nat)
    (i : nat) (latest_horario : list Stint) : option (list Stint) :=
  slot ← latest_horario !! i;
  let piloto_asignado := Piloto_al_Volante slot in
  if bool_decide (piloto_asignado ≠ Sin_Asignar) then
    let piloto_config_row := rows_of_pilot df_to_save piloto_asignado in
    if negb (empty_frame piloto_config_row) then
      d ← disponible piloto_config_row i race_duration;
      if negb (truth d)
      then Some (<[i := set_Piloto_al_Volante Sin_Asignar slot]> latest_horario)
      else Some latest_horario
    else Some latest_horario
  else Some latest_horario.

(** The loop of lines 211-222. *)
Definition reconcile (df_to_save : DataFrame) (latest_horario : list Stint)
    (race_duration : nat) : option (list Stint) :=
  for_each (reconcile_step df_to_save race_duration) (seq 0 race_duration)
           latest_horario.

Definition set_pilots_horario (p : list PilotRow) (h : list Stint) (t : Team)
    : Team :=
  {| race_config := race_config t; pilots := p; horario := h |}.

(** The button 'Guardar Configuración de Pilotos'. *)
Definition guardar_configuracion_de_pilotos (edited_pilots_df : DataFrame)
    : M Outcome :=
  with_selected_team (λ name team_data,
    let start_hour := start_hour (race_config team_data) in
    let race_duration := duration (race_config team_data) in
    latest_db_data ← load_data;
    let df_to_save :=
      rename (reverse_column_map start_hour race_duration) edited_pilots_df in
    latest_team ← lift (latest_db_data !! name);
    latest_horario ←
      lift (reconcile df_to_save (horario latest_team) race_duration);
    let latest_db_data' :=
      <[name := set_pilots_horario (to_dict_records df_to_save) latest_horario
                  latest_team]> latest_db_data in
    save_data latest_db_data';;
    set_db latest_db_data';;
    mret Rerun).

(** ** Assigning stints (lines 235-284) *)

(** Lines 245-251: the pilots offered for hour [i], read from the edited
    table, whose hour columns carry the labels shown. *)
Definition pilotos_disponibles (edited_pilots_df : DataFrame) (start_hour : Z)
    (i race_duration : nat) : list string :=
  if i =? 0 then
    Piloto <$> rows (boolean_index edited_pilots_df
                       (eq_True <$> (Quiere_Empezar <$> rows edited_pilots_df)))
  else if i =? race_duration - 1 then
    Piloto <$> rows (boolean_index edited_pilots_df
                       (eq_True <$> (Quiere_Terminar <$> rows edited_pilots_df)))
  else
    let hora_label := hour_label start_hour i in
    match column edited_pilots_df hora_label with
    | Some col => Piloto <$> rows (boolean_index edited_pilots_df (eq_True <$> col))
    | None => []
    end.

(** Line 253. *)
Definition lista_pilotos_filtrada (edited_pilots_df : DataFrame)
    (start_hour : Z) (i race_duration : nat) : list string :=
  Sin_Asignar :: pilotos_disponibles edited_pilots_df start_hour i race_duration.

(** One pass of the loop of lines 273-278; [horario_df] is the schedule the
    page was rendered from. *)
Definition merge_step (horario_df : list Stint)
    (nuevas_asignaciones nuevos_comentarios : list string)
    (i : nat) (horario_a_guardar : list Stint) : option (list Stint) :=
  shown ← horario_df !! i;
  nueva ← nuevas_asignaciones !! i;
  h1 ← (if bool_decide (nueva ≠ Piloto_al_Volante shown)
        then slot ← horario_a_guardar !! i;
             Some (<[i := set_Piloto_al_Volante nueva slot]> horario_a_guardar)
        else Some horario_a_guardar);
  comentario ← nuevos_comentarios !! i;
  if bool_decide (comentario ≠ Comentarios shown)
  then slot ← h1 !! i; Some (<[i := set_Comentarios comentario slot]> h1)
  else Some h1.

Definition merge_horario (horario_df : list Stint)
    (nuevas_asignaciones nuevos_comentarios : list string)
    (horario_a_guardar : list Stint) (race_duration : nat)
    : option (list Stint) :=
  for_each (merge_step horario_df nuevas_asignaciones nuevos_comentarios)
           (seq 0 race_duration) horario_a_guardar.

Definition set_horario (h : list Stint) (t : Team) : Team :=
  {| race_config := race_config t; pilots := pilots t; horario := h |}.

(** The button 'Guardar Horario Asignado'. *)
Definition guardar_horario_asignado
    (nuevas_asignaciones nuevos_comentarios : list string) : M Outcome :=
  with_selected_team (λ name team_data,
    let horario_df := horario team_data in
    let race_duration := duration (race_config team_data) in
    latest_db_data ← load_data;
    latest_team ← lift (latest_db_data !! name);
    horario_a_guardar ←
      lift (merge_horario horario_df nuevas_asignaciones nuevos_comentarios
                          (horario latest_team) race_duration);
    let latest_db_data' :=
      <[name := set_horario horario_a_guardar latest_team]> latest_db_data in
    save_data latest_db_data';;
    set_db latest_db_data';;
    mret Rerun).

(** ** The summary (lines 286-313) *)

Definition occurrences (v : string) (l : list string) : nat :=
  length (filter (λ x, x = v) l).

(** [pd.Series(l).value_counts()]: the distinct values with their counts,
    the largest count first. *)
Definition more_frequent (x y : string * nat) : Prop := y.2 ≤ x.2.

#[global] Instance more_frequent_dec x y : Decision (more_frequent x y).
Proof. unfold more_frequent. apply _. Defined.

Definition value_counts (l : list string) : list (string * nat) :=
  merge_sort more_frequent ((λ v, (v, occurrences v l)) <$> remove_dups l).

(** [resumen_df] (line 288). *)
Definition resumen_df (nuevas_asignaciones : list string)
    : list (string * nat) :=
  filter (λ vc, vc.1 ≠ Sin_Asignar) (value_counts nuevas_asignaciones).

(** A warning of line 309: the pilot, the limit and the stints assigned. *)
Record Alert : Type := mkAlert {
  piloto_nombre : string;
  limite : Z;
  stints_asignados : nat
}.

#[global] Instance Alert_eq_dec : EqDecision Alert.
Proof. solve_decision. Defined.


(** The body of the loop of lines 302-310 for one row of [resumen_df]. *)
Definition alerta (edited_pilots_df : DataFrame) (row : string * nat)
    : option Alert :=
  let limite_piloto_df := rows_of_pilot edited_pilots_df row.1 in
  if negb (empty_frame limite_piloto_df) then
    match head (Horas_Limite <$> rows limite_piloto_df) with
    | Some (Some limite) =>
        if bool_decide (0 < limite)%Z && bool_decide (limite < Z.of_nat row.2)%Z
        then Some {| piloto_nombre := row.1; limite := limite;
                     stints_asignados := row.2 |}
        else None
    | _ => None
    end
  else None.

(** The warnings shown, in the order of the rows of [resumen_df]. *)
Definition alertas (edited_pilots_df : DataFrame)
    (nuevas_asignaciones : list string) : list Alert :=
  omap (alerta edited_pilots_df) (resumen_df nuevas_asignaciones).

(** ** Operations of the page *)

(** The operations that change a team or the mapping of teams. *)
Inductive Operation : Type :=
  | Crear_equipo (new_team_name : string) (new_team_duration : nat)
  | Eliminar_equipo (team_to_delete : option string)
  | Cambiar_hora_de_inicio (new_start_hour : Z)
  | Guardar_configuracion_de_pilotos (edited_pilots_df : DataFrame)
  | Guardar_horario_asignado (nuevas_asignaciones nuevos_comentarios : list string).

Definition run (op : Operation) : M Outcome :=
  match op with
  | Crear_equipo n d => crear_equipo n d
  | Eliminar_equipo t => eliminar_equipo t
  | Cambiar_hora_de_inicio h => cambiar_hora_de_inicio h
  | Guardar_configuracion_de_pilotos df => guardar_configuracion_de_pilotos df
  | Guardar_horario_asignado a c => guardar_horario_asignado a c
  end.

(** ** The notions of the specification *)

(** The flags of a pilot record; a blank flag is not set. *)
Definition wantsToStart (pilot : PilotRow) : bool :=
  match Quiere_Empezar pilot with
  | Bool b => b
  | PyNone | NaN => false
  end.

Definition wantsToFinish (pilot : PilotRow) : bool :=
  match Quiere_Terminar pilot with
  | Bool b => b
  | PyNone | NaN => false
  end.

(** The entry of a pilot for an hour, in a table whose hour columns are
    named by [hour_column]; the entry is missing when the table has no such
    column or the record holds no boolean there. *)
Definition hourlyAvailability (hour_column : nat → string) (df : DataFrame)
    (pilot : PilotRow) (hourIndex : nat) : option bool :=
  if decide (hour_column hourIndex ∈ columns df) then
    match horas pilot !! hour_column hourIndex with
    | Some (Bool b) => Some b
    | _ => None
    end
  else None.

(** Follows the specification: [wantsToStart] if the hour is 0,
    [wantsToFinish] if it is the last one, else the hourly entry, false if
    that is missing. *)
Definition effectiveAvailability (hour_column : nat → string) (df : DataFrame)
    (pilot : PilotRow) (hourIndex durationHours : nat) : bool :=
  if hourIndex =? 0 then wantsToStart pilot
  else if hourIndex =? durationHours - 1 then wantsToFinish pilot
  else default false (hourlyAvailability hour_column df pilot hourIndex).

(** Follows the specification: the pilots whose effective availability is
    true, in the order of the table. *)
Definition eligiblePilots (hour_column : nat → string) (df : DataFrame)
    (hourIndex durationHours : nat) : list string :=
  Piloto <$> filter (λ pilot, effectiveAvailability hour_column df pilot
                                 hourIndex durationHours = true) (rows df).

(** The cell of a record that decides hour [hourIndex]. *)
Definition deciding_cell (hour_column : nat → string) (df : DataFrame)
    (pilot : PilotRow) (hourIndex durationHours : nat) : option cell :=
  if hourIndex =? 0 then Some (Quiere_Empezar pilot)
  else if hourIndex =? durationHours - 1 then Some (Quiere_Terminar pilot)
  else if decide (hour_column hourIndex ∈ columns df)
       then Some (cell_at (hour_column hourIndex) pilot)
       else None.

(** The first record of a pilot in a table ([.iloc[0]] of the rows selected
    by name). *)
Definition record_of (df : DataFrame) (name : string) : option PilotRow :=
  head (rows (rows_of_pilot df name)).

(** The reconciliation as the specification words it: a slot assigned to a
    pilot who has no record in the updated table, or whose record is not
    available at that hour, becomes unassigned. *)
Definition reconcile_clears_stale_and_unavailable : Prop :=
  ∀ (df : DataFrame) (h h' : list Stint) (d i : nat) (s : Stint),
    length h = d → reconcile df h d = Some h' →
    i < d → h !! i = Some s → Piloto_al_Volante s ≠ Sin_Asignar →
    (record_of df (Piloto_al_Volante s) = None
     ∨ ∃ r, record_of df (Piloto_al_Volante s) = Some r
            ∧ effectiveAvailability str df r i d = false) →
    h' !! i = Some {| Piloto_al_Volante := Sin_Asignar;
                      Comentarios := Comentarios s |}.

(** A write is preceded by a fresh load: in the calls an operation makes on
    the collection, every [Update_one] comes right after a [Find_one]. *)
Fixpoint loads_before_writes (loaded : bool) (calls : list Event) : bool :=
  match calls with
  | [] => true
  | Find_one :: calls' => loads_before_writes true calls'
  | Insert_one _ :: calls' => loads_before_writes loaded calls'
  | Update_one _ :: calls' => loaded && loads_before_writes false calls'
  end.

(** The shape of a schedule: one slot per hour of the race. *)
Definition schedule_shape (t : Team) : Prop :=
  length (horario t) = duration (race_config t).

Definition shaped (s : State) : Prop :=
  (∀ doc, store s = Some doc → map_Forall (λ _, schedule_shape) doc)
  ∧ map_Forall (λ _, schedule_shape) (db s).

(** What an operation may do to the slot of hour [i]. *)
Definition slot_update (op : Operation) (i : nat) (old new : Stint) : Prop :=
  match op with
  | Guardar_configuracion_de_pilotos _ =>
      Comentarios new = Comentarios old
      ∧ (Piloto_al_Volante new = Piloto_al_Volante old
         ∨ Piloto_al_Volante new = Sin_Asignar)
  | Guardar_horario_asignado asignaciones comentarios =>
      (Piloto_al_Volante new = Piloto_al_Volante old
       ∨ asignaciones !! i = Some (Piloto_al_Volante new))
      ∧ (Comentarios new = Comentarios old
         ∨ comentarios !! i = Some (Comentarios new))
  | _ => new = old
  end.

(** [new] is [old] with its slots updated where they stand. *)
Definition updated_in_place (op : Operation) (old new : list Stint) : Prop :=
  length new = length old
  ∧ ∀ i s', new !! i = Some s' →
      ∃ s, old !! i = Some s ∧ slot_update op i s s'.

(** The schedule of a team made by [get_default_team_structure]. *)
Definition default_schedule (t : Team) : Prop :=
  horario t = replicate (duration (race_config t)) (mkStint Sin_Asignar "").

(** ** The loops, slot by slot *)

(** A loop body that replaces the element at its index. *)
Definition pointwise {A : Type} (f : nat → A → option A) (i : nat)
    (l : list A) : option (list A) :=
  x ← l !! i; y ← f i x; Some (<[i := y]> l).

(** What lines 212-222 do to the slot of hour [i]. *)
Definition reconcile_slot (df_to_save : DataFrame) (race_duration i : nat)
    (slot : Stint) : option Stint :=
  if bool_decide (Piloto_al_Volante slot ≠ Sin_Asignar) then
    let piloto_config_row := rows_of_pilot df_to_save (Piloto_al_Volante slot) in
    if negb (empty_frame piloto_config_row) then
      d ← disponible piloto_config_row i race_duration;
      Some (if negb (truth d) then set_Piloto_al_Volante Sin_Asignar slot
            else slot)
    else Some slot
  else Some slot.

(** What lines 275-278 do to the slot of hour [i]. *)
Definition merge_slot (horario_df : list Stint)
    (nuevas_asignaciones nuevos_comentarios : list string) (i : nat)
    (slot : Stint) : option Stint :=
  shown ← horario_df !! i;
  nueva ← nuevas_asignaciones !! i;
  comentario ← nuevos_comentarios !! i;
  Some {| Piloto_al_Volante :=
            if bool_decide (nueva ≠ Piloto_al_Volante shown) then nueva
            else Piloto_al_Volante slot;
          Comentarios :=
            if bool_decide (comentario ≠ Comentarios shown) then comentario
            else Comentarios slot |}.

(** ** States and tables used in the statements *)

(** The hour columns of a default team: every hour available. *)
Definition all_hours (duration : nat) : gmap string cell :=
  list_to_map ((λ h, (str h, Bool true)) <$> seq 0 duration).

(** The state after [load_data] has returned [doc]. *)
Definition after_load (doc : gmap string Team) (s : State) : State :=
  {| store := Some doc;
     events := events s ++ Find_one :: match store s with
                                       | Some _ => []
                                       | None => [Insert_one doc]
                                       end;
     db := db s;
     selected_team := selected_team s;
     newly_created_team := newly_created_team s |}.

(** Where a team of the stored document may come from: the session's
    mapping, the document stored before, or [get_default_team_structure]. *)
Definition origin (s : State) (name : string) (t : Team) : Prop :=
  db s !! name = Some t
  ∨ (∃ doc, store s = Some doc ∧ doc !! name = Some t)
  ∨ (∃ n d, get_default_team_structure n d = Some t).

(** Two pilot records: Alex starts and is not available at hour 1; the
    record of Sam has no entry for any hour. *)
Definition alex : PilotRow :=
  {| Piloto := "Alex"; Quiere_Empezar := Bool true;
     Quiere_Terminar := Bool false; Horas_Limite := Some 0%Z;
     horas := {[ "1" := Bool false ]} |}.

Definition sam : PilotRow :=
  {| Piloto := "Sam"; Quiere_Empezar := Bool false;
     Quiere_Terminar := Bool true; Horas_Limite := Some 3%Z;
     horas := ∅ |}.

(** Kim starts and is available at hour 1. *)
Definition kim : PilotRow :=
  {| Piloto := "Kim"; Quiere_Empezar := Bool true;
     Quiere_Terminar := Bool false; Horas_Limite := Some 0%Z;
     horas := {[ "1" := Bool true ]} |}.

Definition unassigned : Stint := mkStint Sin_Asignar "".

(** A team of three hours, and the same team after another session has put
    Alex on the first hour. *)
Definition team_A : Team :=
  {| race_config := {| start_hour := 14; duration := 3 |};
     pilots := [alex; sam];
     horario := [unassigned; unassigned; unassigned] |}.

Definition team_A_assigned : Team :=
  set_horario [mkStint "Alex" ""; unassigned; unassigned] team_A.

(** A session that loaded the document before the other session saved. *)
Definition stale_session : State :=
  {| store := Some {[ "A" := team_A_assigned ]};
     events := [];
     db := {[ "A" := team_A ]};
     selected_team := Some "A";
     newly_created_team := None |}.

(** The same with a second team in both the document and the session. *)
Definition stale_session_two_teams : State :=
  {| store := Some {[ "A" := team_A_assigned; "B" := team_A ]};
     events := [];
     db := {[ "A" := team_A; "B" := team_A ]};
     selected_team := Some "A";
     newly_created_team := None |}.

(** A session on a team of three hours with the given pilot records, in
    which Sam drives the second hour. *)
Definition session_with_Sam (records : list PilotRow) : State :=
  let t := {| race_config := {| start_hour := 14; duration := 3 |};
              pilots := records;
              horario := [unassigned; mkStint "Sam" ""; unassigned] |} in
  {| store := Some {[ "A" := t ]};
     events := [];
     db := {[ "A" := t ]};
     selected_team := Some "A";
     newly_created_team := None |}.

(** The schedule of team A in the stored document. *)
Definition stored_horario_A (s : State) : option (list Stint) :=
  doc ← store s; t ← doc !! "A"; Some (horario t).

(** Every team of the stored document after an operation comes from a team
    known before, with the same duration and its schedule updated in place. *)
Definition traced (op : Operation) (s s' : State) : Prop :=
  ∀ doc' name t', store s' = Some doc' → doc' !! name = Some t' →
    ∃ t, origin s name t
         ∧ duration (race_config t') = duration (race_config t)
         ∧ updated_in_place op (horario t) (horario t').

(** ** The rest of the page *)

(** *** Colours (lines 9-22 and 266) *)

Definition SAFE_COLOR_PALETTE : list string :=
  ["#1f77b4"; "#ff7f0e"; "#2ca02c"; "#9467bd"; "#8c564b";
   "#e377c2"; "#7f7f7f"; "#bcbd22"; "#17becf"; "#4A90E2"].

(** [l.index(x)]: the first position of [x]; [None] is the ValueError. *)
Definition index (x : string) (l : list string) : option nat :=
  fst <$> list_find (λ y, y = x) l.

(** [get_color_for_pilot] (lines 14-22).  [hash] is Python's built-in hash
    of a string, an integer that differs from one process to the next.  The
    lookup in the [try] block falls through to the [except] clause when it
    fails; [None] is an exception raised inside that clause. *)
Definition get_color_for_pilot (hash : string → Z) (pilot_name : string)
    (pilot_list : list string) : option string :=
  if bool_decide (pilot_name = Sin_Asignar) || bool_decide (pilot_name = "")
  then Some "#f0f2f6"
  else
    match i ← index pilot_name pilot_list;
          SAFE_COLOR_PALETTE !! (i `mod` length SAFE_COLOR_PALETTE) with
    | Some color => Some color
    | None =>
        SAFE_COLOR_PALETTE
          !! Z.to_nat (hash pilot_name
                       `mod` Z.of_nat (length SAFE_COLOR_PALETTE))%Z
    end.

(** Line 266: the colour of the text on a pilot's colour. *)
Definition text_color (color : string) : string :=
  if bool_decide (color ≠ "#f0f2f6") then "white" else "black".

(** [Series.unique()]: the values in the order of their first occurrence. *)
Fixpoint unique (l : list string) : list string :=
  match l with
  | [] => []
  | x :: l' => x :: filter (λ y, y ≠ x) (unique l')
  end.

(** [pilot_list] (line 148). *)
Definition pilot_list (config_df : DataFrame) : list string :=
  unique (Piloto <$> rows config_df).

(** *** The start of a pass over the page (lines 65-81) *)

(** Lines 65-67, for a session that has no ['db'] yet. *)
Definition new_session : M unit :=
  d ← load_data; set_db d.

(** Lines 74-81: a team just created becomes the selected one, and a
    selection that is not a key of the mapping is dropped. *)
Definition page_prelude : M unit := λ s,
  let selected := match newly_created_team s with
                  | Some name => Some name
                  | None => selected_team s
                  end in
  let team_names := (map_to_list (db s)).*1 in
  (Some (),
   {| store := store s; events := events s; db := db s;
      selected_team := match selected with
                       | Some name => if decide (name ∈ team_names)
                                      then Some name else None
                       | None => None
                       end;
      newly_created_team := None |}).

(** *** The table shown (lines 189-192) *)

(** [column_map]: from the stored name of an hour column to its label. *)
Definition column_map (start_hour : Z) (race_duration : nat)
    : gmap string string :=
  list_to_map (reverse ((λ h, (str h, hour_label start_hour h))
                          <$> seq 0 race_duration)).

Definition display_config_df (start_hour : Z) (race_duration : nat)
    (config_df : DataFrame) : DataFrame :=
  rename (column_map start_hour race_duration) config_df.

(** *** The select box of an hour (lines 253-260) *)

(** Lines 254-255. *)
Definition default_index (lista_pilotos_filtrada : list string)
    (piloto_actual : string) : nat :=
  default 0 (index piloto_actual lista_pilotos_filtrada).

(** The option a select box shows before the user touches it. *)
Definition preselected (lista_pilotos_filtrada : list string)
    (piloto_actual : string) : option string :=
  lista_pilotos_filtrada
    !! default_index lista_pilotos_filtrada piloto_actual.

(** *** Notions used in the statements *)

(** The calls an operation added to those made before. *)
Definition new_events (s s' : State) : list Event :=
  drop (length (events s)) (events s').

Definition is_update (e : Event) : bool :=
  match e with
  | Update_one _ => true
  | _ => false
  end.


(** The sum of the counts of a summary. *)
Definition total_stints (resumen : list (string * nat)) : nat :=
  foldr (λ row n, row.2 + n) 0 resumen.

(** The test of the availability save on the slot of hour [i]: the pilot has
    a record whose deciding cell is false. *)
Definition fails_test (df : DataFrame) (race_duration i : nat) (slot : Stint)
    : Prop :=
  ∃ r c, record_of df (Piloto_al_Volante slot) = Some r
         ∧ deciding_cell str df r i race_duration = Some c
         ∧ truth c = false.

(** The lookups of the availability save that raise: the schedule has no
    slot [i], or slot [i] is assigned to a pilot with a record and the table
    lacks the column of that hour. *)
Definition raises_at (df : DataFrame) (h : list Stint) (race_duration i : nat)
    : Prop :=
  h !! i = None
  ∨ ∃ slot r, h !! i = Some slot
              ∧ Piloto_al_Volante slot ≠ Sin_Asignar
              ∧ record_of df (Piloto_al_Volante slot) = Some r
              ∧ deciding_cell str df r i race_duration = None.

(** The state after [save_data doc'] and [st.session_state.db = doc']. *)
Definition after_save (doc' : gmap string Team) (s : State) : State :=
  {| store := Some doc';
     events := events s ++ [Update_one doc'];
     db := doc';
     selected_team := selected_team s;
     newly_created_team := newly_created_team s |}.

(** The name [df.rename(columns=m)] gives the column [c]. *)
Definition renamed (m : gmap string string) (c : string) : string :=
  default c (m !! c).

(** * Proofs *)

(** ** Loops *)

Section loops.
Context {A : Type}.
Implicit Types (body : nat → A → option A) (f : nat → A → option A).

Lemma for_each_rel (R : A → A → Prop) body range acc acc' :
  (∀ x, R x x) → (∀ x y z, R x y → R y z → R x z) →
  (∀ i x y, body i x = Some y → R x y) →
  for_each body range acc = Some acc' → R acc acc'.
Proof.
  intros Hrefl Htrans Hbody. revert acc.
  induction range as [|i range IH]; intros acc Hrun; simpl in Hrun.
  - by simplify_eq.
  - destruct (body i acc) as [acc1|] eqn:Hi; simplify_eq/=.
    eapply Htrans; eauto.
Qed.

Lemma for_each_ext_inv (I : A → Prop) body1 body2 range acc :
  I acc →
  (∀ i x y, I x → body2 i x = Some y → I y) →
  (∀ i x, i ∈ range → I x → body1 i x = body2 i x) →
  for_each body1 range acc = for_each body2 range acc.
Proof.
  intros Hacc Hpres Heq. revert acc Hacc.
  induction range as [|i range IH]; intros acc Hacc; simpl; [done|].
  rewrite Heq; [|by left|done].
  destruct (body2 i acc) as [acc1|] eqn:Hi; simpl; [|done].
  apply IH; [|by eauto].
  intros j x Hj. apply Heq. by right.
Qed.
End loops.

Section pointwise_loops.
Context {A : Type} (f : nat → A → option A).

Lemma pointwise_Some i (l l1 : list A) :
  pointwise f i l = Some l1 →
  ∃ x y, l !! i = Some x ∧ f i x = Some y ∧ l1 = <[i := y]> l.
Proof.
  unfold pointwise. intros H.
  destruct (l !! i) as [x|]; simplify_eq/=.
  destruct (f i x) as [y|] eqn:Hy; simplify_eq/=. eauto.
Qed.

Lemma pointwise_intro i (l : list A) x y :
  l !! i = Some x → f i x = Some y → pointwise f i l = Some (<[i := y]> l).
Proof. unfold pointwise. intros -> Hy. simpl. by rewrite Hy. Qed.

Lemma for_each_pointwise_Some a n (l l' : list A) :
  for_each (pointwise f) (seq a n) l = Some l' →
  length l' = length l
  ∧ (∀ i, a ≤ i < a + n → is_Some (l' !! i) ∧ l' !! i = l !! i ≫= f i)
  ∧ (∀ i, ¬ (a ≤ i < a + n) → l' !! i = l !! i).
Proof.
  revert a l. induction n as [|n IH]; intros a l Hrun; simpl in Hrun.
  - simplify_eq. split; [done|]. split; [lia|done].
  - destruct (pointwise f a l) as [l1|] eqn:Ha; simplify_eq/=.
    apply pointwise_Some in Ha as (x & y & Hx & Hy & ->).
    apply IH in Hrun as (Hlen & Hin & Hout).
    rewrite length_insert in Hlen. split; [done|]. split.
    + intros i Hi. destruct (decide (i = a)) as [->|Hne].
      * rewrite Hout; [|lia].
        rewrite list_lookup_insert_eq; [|by eapply lookup_lt_Some].
        rewrite Hx. simpl. by rewrite Hy.
      * destruct (Hin i) as [Hs Heq]; [lia|].
        rewrite list_lookup_insert_ne in Heq; done.
    + intros i Hi. rewrite Hout; [|lia].
      apply list_lookup_insert_ne. lia.
Qed.

Lemma for_each_pointwise_total a n (l : list A) :
  (∀ i, a ≤ i < a + n → is_Some (l !! i ≫= f i)) →
  is_Some (for_each (pointwise f) (seq a n) l).
Proof.
  revert a l. induction n as [|n IH]; intros a l Hall; simpl; [done|].
  destruct (Hall a) as [y Hy]; [lia|].
  destruct (l !! a) as [x|] eqn:Hx; [|done]. simpl in Hy.
  rewrite (pointwise_intro a l x y Hx Hy). simpl.
  apply IH. intros i Hi.
  rewrite list_lookup_insert_ne; [|lia]. apply Hall. lia.
Qed.
End pointwise_loops.

(** ** Reconciliation *)

Lemma reconcile_step_pointwise df d i h :
  reconcile_step df d i h = pointwise (reconcile_slot df d) i h.
Proof.
  unfold reconcile_step, pointwise, reconcile_slot.
  destruct (h !! i) as [slot|] eqn:Hslot; simpl; [|done].
  case_bool_decide; simpl; [|by rewrite list_insert_id].
  destruct (empty_frame _); simpl; [by rewrite list_insert_id|].
  destruct (disponible _ _ _) as [c|]; simpl; [|done].
  destruct (truth c); simpl; [by rewrite list_insert_id|done].
Qed.

Lemma reconcile_pointwise df h d :
  reconcile df h d = for_each (pointwise (reconcile_slot df d)) (seq 0 d) h.
Proof.
  unfold reconcile.
  apply (for_each_ext_inv (λ _, True)); [done|done|].
  intros. apply reconcile_step_pointwise.
Qed.

Lemma empty_frame_record_of df name :
  empty_frame (rows_of_pilot df name) = true ↔ record_of df name = None.
Proof.
  unfold empty_frame, record_of.
  destruct (rows (rows_of_pilot df name)); simpl; split; done.
Qed.

Lemma disponible_deciding_cell df name r i d :
  record_of df name = Some r →
  disponible (rows_of_pilot df name) i d = deciding_cell str df r i d.
Proof.
  unfold record_of, disponible, deciding_cell, column.
  assert (columns (rows_of_pilot df name) = columns df) as -> by done.
  generalize (rows (rows_of_pilot df name)). intros [|r' rest] Hr;
    simplify_eq/=.
  destruct (i =? 0); [done|]. destruct (i =? d - 1); [done|].
  by destruct (decide (str i ∈ columns df)).
Qed.

Lemma reconcile_slot_unassigned df d i slot :
  Piloto_al_Volante slot = Sin_Asignar → reconcile_slot df d i slot = Some slot.
Proof. intros Hp. unfold reconcile_slot. by rewrite bool_decide_eq_false_2 by naive_solver. Qed.

Lemma reconcile_slot_no_record df d i slot :
  record_of df (Piloto_al_Volante slot) = None →
  reconcile_slot df d i slot = Some slot.
Proof.
  intros Hr. unfold reconcile_slot. case_bool_decide; [|done].
  apply empty_frame_record_of in Hr. by rewrite Hr.
Qed.

Lemma reconcile_slot_record df d i slot r :
  Piloto_al_Volante slot ≠ Sin_Asignar →
  record_of df (Piloto_al_Volante slot) = Some r →
  reconcile_slot df d i slot =
    c ← deciding_cell str df r i d;
    Some (if truth c then slot else set_Piloto_al_Volante Sin_Asignar slot).
Proof.
  intros Hp Hr. unfold reconcile_slot.
  rewrite bool_decide_eq_true_2 by done.
  destruct (empty_frame _) eqn:He.
  { apply empty_frame_record_of in He. congruence. }
  simpl. rewrite (disponible_deciding_cell _ _ _ _ _ Hr).
  destruct (deciding_cell _ _ _ _ _) as [c|]; simpl; [|done].
  by destruct (truth c).
Qed.

Lemma reconcile_slot_idempotent df d i slot slot' :
  reconcile_slot df d i slot = Some slot' →
  reconcile_slot df d i slot' = Some slot'.
Proof.
  intros H.
  destruct (decide (Piloto_al_Volante slot = Sin_Asignar)) as [Hp|Hp].
  { rewrite reconcile_slot_unassigned in H by done. simplify_eq.
    by apply reconcile_slot_unassigned. }
  destruct (record_of df (Piloto_al_Volante slot)) as [r|] eqn:Hr.
  - rewrite (reconcile_slot_record _ _ _ _ r) in H by done.
    destruct (deciding_cell _ _ _ _ _) as [c|] eqn:Hc; simplify_eq/=.
    destruct (truth c) eqn:Ht.
    + rewrite (reconcile_slot_record _ _ _ _ r) by done.
      rewrite Hc. simpl. by rewrite Ht.
    + by apply reconcile_slot_unassigned.
  - rewrite reconcile_slot_no_record in H by done. simplify_eq.
    by apply reconcile_slot_no_record.
Qed.

Lemma truth_deciding_cell hour_column df r i d c :
  deciding_cell hour_column df r i d = Some c → c ≠ NaN →
  truth c = effectiveAvailability hour_column df r i d.
Proof.
  unfold deciding_cell, effectiveAvailability, hourlyAvailability,
    wantsToStart, wantsToFinish, cell_at.
  intros Hc Hnan.
  destruct (i =? 0); [by simplify_eq; destruct (Quiere_Empezar r)|].
  destruct (i =? d - 1); [by simplify_eq; destruct (Quiere_Terminar r)|].
  destruct (decide (hour_column i ∈ columns df)); [|done].
  simplify_eq. by destruct (horas r !! hour_column i) as [[]|].
Qed.

Lemma reconcile_total_spec df h d :
  d ≤ length h →
  (∀ i, 0 < i < d - 1 → str i ∈ columns df) →
  ∃ h', reconcile df h d = Some h' ∧ length h' = length h
        ∧ ∀ i, h' !! i = if decide (i < d) then h !! i ≫= reconcile_slot df d i
                         else h !! i.
Proof.
  intros Hlen Hcols. rewrite reconcile_pointwise.
  destruct (for_each_pointwise_total (reconcile_slot df d) 0 d h) as [h' Hrun].
  { intros i Hi. destruct (lookup_lt_is_Some_2 h i) as [s Hs]; [lia|].
    rewrite Hs. simpl.
    destruct (decide (Piloto_al_Volante s = Sin_Asignar)) as [Hp|Hp].
    { by rewrite reconcile_slot_unassigned. }
    destruct (record_of df (Piloto_al_Volante s)) as [r|] eqn:Hr;
      [|by rewrite reconcile_slot_no_record].
    rewrite (reconcile_slot_record _ _ _ _ r) by done.
    unfold deciding_cell.
    destruct (i =? 0) eqn:H0; [done|]. destruct (i =? d - 1) eqn:H1; [done|].
    apply Nat.eqb_neq in H0, H1.
    rewrite decide_True; [done|]. apply Hcols. lia. }
  exists h'. split; [done|].
  apply for_each_pointwise_Some in Hrun as (Hl & Hin & Hout).
  split; [done|]. intros i. case_decide.
  - apply Hin. lia.
  - apply Hout. lia.
Qed.

(** C3.  Reconciling is idempotent: for every pilots table, schedule and
    duration, reconciling the result of a reconciliation again, with the same
    table, gives that result; and where the first pass raises, so does the
    composition. *)
Theorem reconcile_idempotent (df : DataFrame) (h : list Stint) (d : nat) :
  (reconcile df h d ≫= λ h', reconcile df h' d) = reconcile df h d.
Proof.
  destruct (reconcile df h d) as [h'|] eqn:Hrun; simpl; [|done].
  rewrite reconcile_pointwise in Hrun |- *.
  apply for_each_pointwise_Some in Hrun as (Hlen & Hin & Hout).
  assert (∀ i, 0 ≤ i < 0 + d → h' !! i ≫= reconcile_slot df d i = h' !! i)
    as Hfix.
  { intros i Hi. destruct (Hin i Hi) as [[s' Hs'] Heq].
    rewrite Hs' in Heq |- *. simpl.
    destruct (h !! i) as [s|]; simplify_eq/=.
    by eapply reconcile_slot_idempotent. }
  destruct (for_each_pointwise_total (reconcile_slot df d) 0 d h') as [h'' Hrun'].
  { intros i Hi. rewrite Hfix by done. by apply Hin. }
  rewrite Hrun'. f_equal.
  apply for_each_pointwise_Some in Hrun' as (Hlen' & Hin' & Hout').
  apply list_eq. intros i.
  destruct (decide (0 ≤ i < 0 + d)) as [Hi|Hi].
  - destruct (Hin' i Hi) as [_ ->]. by apply Hfix.
  - by apply Hout'.
Qed.

Lemma effective_deciding_cell hour_column df r i d :
  effectiveAvailability hour_column df r i d = true →
  deciding_cell hour_column df r i d = Some (Bool true).
Proof.
  unfold deciding_cell, effectiveAvailability, hourlyAvailability,
    wantsToStart, wantsToFinish, cell_at.
  destruct (i =? 0); [by destruct (Quiere_Empezar r) as [[]| |]|].
  destruct (i =? d - 1); [by destruct (Quiere_Terminar r) as [[]| |]|].
  destruct (decide (hour_column i ∈ columns df)); [|done].
  by destruct (horas r !! hour_column i) as [[[]| |]|].
Qed.

(** C1, as amended.  For a schedule of [d] slots and an updated pilots table
    that has the columns of the hours between the first and the last, the
    reconciliation of the availability save returns a schedule of the same
    length in which a slot assigned to a pilot becomes the slot of
    'Sin Asignar' with the same comment when the first record of that pilot
    exists, its effective availability at the hour is false and the cell
    that decides the hour (start flag at hour 0, finish flag at the last
    hour, the hour's entry otherwise) is not the blank of a missing entry.
    A slot that is unassigned, whose pilot has no record in the updated
    table, or whose pilot's effective availability is true, is unchanged.
    Nothing is said of a slot whose deciding cell is blank. *)
Theorem reconcile_clears_unavailable (df : DataFrame) (h : list Stint) (d : nat) :
  length h = d →
  (∀ i, 0 < i < d - 1 → str i ∈ columns df) →
  ∃ h', reconcile df h d = Some h' ∧ length h' = length h ∧
    ∀ i s, h !! i = Some s →
      (∀ r, Piloto_al_Volante s ≠ Sin_Asignar →
            record_of df (Piloto_al_Volante s) = Some r →
            deciding_cell str df r i d ≠ Some NaN →
            effectiveAvailability str df r i d = false →
            h' !! i = Some {| Piloto_al_Volante := Sin_Asignar;
                              Comentarios := Comentarios s |})
      ∧ (Piloto_al_Volante s = Sin_Asignar
         ∨ record_of df (Piloto_al_Volante s) = None
         ∨ (∃ r, record_of df (Piloto_al_Volante s) = Some r
                 ∧ effectiveAvailability str df r i d = true) →
         h' !! i = Some s).
Proof.
  intros Hlen Hcols.
  destruct (reconcile_total_spec df h d) as (h' & Hrun & Hl & Hget); [lia|done|].
  exists h'. split; [done|]. split; [done|].
  intros i s Hs. pose proof (lookup_lt_Some _ _ _ Hs) as Hi.
  specialize (Hget i). rewrite decide_True in Hget by lia.
  rewrite Hs in Hget. simpl in Hget. split.
  - intros r Hp Hr Hnan Hea.
    rewrite Hget, (reconcile_slot_record _ _ _ _ r) by done.
    destruct (deciding_cell str df r i d) as [c|] eqn:Hc.
    + assert (c ≠ NaN) as Hc' by congruence.
      rewrite <- (truth_deciding_cell _ _ _ _ _ _ Hc Hc') in Hea.
      simpl. by rewrite Hea.
    + exfalso. rewrite (reconcile_slot_record _ _ _ _ r), Hc in Hget by done.
      apply lookup_ge_None in Hget. lia.
  - intros [Hp|[Hr|(r & Hr & Hea)]].
    + by rewrite Hget, reconcile_slot_unassigned.
    + by rewrite Hget, reconcile_slot_no_record.
    + destruct (decide (Piloto_al_Volante s = Sin_Asignar)) as [Hp|Hp].
      { by rewrite Hget, reconcile_slot_unassigned. }
      rewrite Hget, (reconcile_slot_record _ _ _ _ r) by done.
      by rewrite (effective_deciding_cell _ _ _ _ _ Hea).
Qed.

Lemma reconcile_clears_unavailable_witness :
  length [mkStint "Alex" "a"; mkStint "Alex" "b"; mkStint "Bob" "c"] = 3
  ∧ ∃ h', reconcile (DataFrame_of_records [alex])
            [mkStint "Alex" "a"; mkStint "Alex" "b"; mkStint "Bob" "c"] 3
          = Some h'
          ∧ h' !! 0 = Some (mkStint "Alex" "a")
          ∧ h' !! 1 = Some (mkStint Sin_Asignar "b")
          ∧ h' !! 2 = Some (mkStint "Bob" "c").
Proof.
  split; [reflexivity|].
  destruct (reconcile_clears_unavailable (DataFrame_of_records [alex])
              [mkStint "Alex" "a"; mkStint "Alex" "b"; mkStint "Bob" "c"] 3)
    as (h' & Hrun & _ & Hslots).
  - reflexivity.
  - intros i Hi. assert (i = 1) as -> by lia. vm_compute. left.
  - exists h'. split; [exact Hrun|]. split; [|split].
    + destruct (Hslots 0 (mkStint "Alex" "a") eq_refl) as [_ Hkeep].
      apply Hkeep. right. right. exists alex. split; reflexivity.
    + destruct (Hslots 1 (mkStint "Alex" "b") eq_refl) as [Hclear _].
      apply (Hclear alex); [discriminate|reflexivity|discriminate|reflexivity].
    + destruct (Hslots 2 (mkStint "Bob" "c") eq_refl) as [_ Hkeep].
      apply Hkeep. right. left. reflexivity.
Defined.

(** C1, as stated, fails: Bob drives the last hour and has no record in the
    updated table; the guard of line 215 leaves his slot as it is. *)
Lemma reconcile_counterexample :
  reconcile (DataFrame_of_records [alex])
            [mkStint "Alex" "a"; mkStint "Alex" "b"; mkStint "Bob" "c"] 3
  = Some [mkStint "Alex" "a"; mkStint Sin_Asignar "b"; mkStint "Bob" "c"]
  ∧ record_of (DataFrame_of_records [alex]) "Bob" = None
  ∧ ¬ reconcile_clears_stale_and_unavailable.
Proof.
  assert (reconcile (DataFrame_of_records [alex])
            [mkStint "Alex" "a"; mkStint "Alex" "b"; mkStint "Bob" "c"] 3
          = Some [mkStint "Alex" "a"; mkStint Sin_Asignar "b";
                  mkStint "Bob" "c"]) as Hrun by (by vm_compute).
  split; [exact Hrun|]. split; [by vm_compute|].
  intros Hclaim.
  assert ([mkStint "Alex" "a"; mkStint Sin_Asignar "b"; mkStint "Bob" "c"]
            !! 2 = Some (mkStint Sin_Asignar "c"))
    as Hslot.
  { apply (Hclaim (DataFrame_of_records [alex])
             [mkStint "Alex" "a"; mkStint "Alex" "b"; mkStint "Bob" "c"]
             [mkStint "Alex" "a"; mkStint Sin_Asignar "b"; mkStint "Bob" "c"]
             3 2 (mkStint "Bob" "c"));
      [reflexivity|exact Hrun|lia|reflexivity|discriminate|].
    left. by vm_compute. }
  discriminate Hslot.
Qed.

(** ** Availability *)

Lemma select_mask {A : Type} (g : A → bool) (P : A → Prop)
    `{∀ x, Decision (P x)} (l : list A) :
  (∀ x, g x = true ↔ P x) → select (g <$> l) l = filter P l.
Proof.
  intros Hg. induction l as [|x l IH]; [done|].
  rewrite fmap_cons, filter_cons. cbn [select]. rewrite IH.
  destruct (g x) eqn:Hx.
  - rewrite decide_True; [done|]. by apply Hg.
  - rewrite decide_False; [done|]. rewrite <- Hg. congruence.
Qed.

Lemma filter_none {A : Type} (P : A → Prop) `{∀ x, Decision (P x)}
    (l : list A) :
  (∀ x, ¬ P x) → filter P l = [].
Proof.
  intros Hno. induction l as [|x l IH]; [done|].
  rewrite filter_cons, IH. rewrite decide_False; [done|]. apply Hno.
Qed.

Lemma pilotos_disponibles_eligible df start i d :
  pilotos_disponibles df start i d = eligiblePilots (hour_label start) df i d.
Proof.
  unfold pilotos_disponibles, eligiblePilots, effectiveAvailability.
  destruct (i =? 0).
  { simpl. rewrite <- list_fmap_compose. f_equal. by apply select_mask. }
  destruct (i =? d - 1).
  { simpl. rewrite <- list_fmap_compose. f_equal. by apply select_mask. }
  unfold column, hourlyAvailability.
  destruct (decide (hour_label start i ∈ columns df)).
  - simpl. rewrite <- list_fmap_compose. f_equal. apply select_mask.
    intros p. unfold cell_at. simpl.
    by destruct (horas p !! hour_label start i) as [[]|].
  - simpl. by rewrite filter_none.
Qed.

(** C4 fails on the code.  The list offered for an hour is the
    specification's: the pilots whose effective availability is true, in the
    order of the table, for every table, duration and hour.  The availability
    save reads the same cells without the default for a missing entry.  Kim
    and Sam are the pilots of a race of three hours and Sam, who has no entry
    for the second hour, drives it: Sam's effective availability there is
    false and the list offered is Kim alone, yet the save keeps Sam on the
    hour, because the blank cell is a NaN and [not NaN] is false.  With Sam
    as the only pilot the table has no column for the hour: the list offered
    is empty, and the save raises KeyError before it writes. *)
Theorem missing_entry_counts_as_available :
  let h := [unassigned; mkStint "Sam" ""; unassigned] in
  let edited := display_config_df 14 3 (DataFrame_of_records [kim; sam]) in
  let df_to_save := rename (reverse_column_map 14 3) edited in
  let save := guardar_configuracion_de_pilotos edited
                (session_with_Sam [kim; sam]) in
  let edited' := display_config_df 14 3 (DataFrame_of_records [sam]) in
  let df_to_save' := rename (reverse_column_map 14 3) edited' in
  let save' := guardar_configuracion_de_pilotos edited'
                 (session_with_Sam [sam]) in
  (∀ df start i d,
     pilotos_disponibles df start i d = eligiblePilots (hour_label start) df i d)
  ∧ record_of df_to_save "Sam" = Some sam
  ∧ effectiveAvailability str df_to_save sam 1 3 = false
  ∧ pilotos_disponibles edited 14 1 3 = ["Kim"]
  ∧ disponible (rows_of_pilot df_to_save "Sam") 1 3 = Some NaN
  ∧ reconcile df_to_save h 3 = Some h
  ∧ save.1 = Some Rerun
  ∧ stored_horario_A save.2 = Some h
  ∧ effectiveAvailability str df_to_save' sam 1 3 = false
  ∧ pilotos_disponibles edited' 14 1 3 = []
  ∧ disponible (rows_of_pilot df_to_save' "Sam") 1 3 = None
  ∧ reconcile df_to_save' h 3 = None
  ∧ save'.1 = None
  ∧ store save'.2 = store (session_with_Sam [sam]).
Proof.
  split; [apply pilotos_disponibles_eligible|]. by vm_compute.
Qed.

(** ** The default team *)

Lemma all_hours_lookup d h : h < d → all_hours d !! str h = Some (Bool true).
Proof.
  intros Hh. unfold all_hours. apply elem_of_list_to_map_1.
  - rewrite <- list_fmap_compose. apply NoDup_fmap_2; [|apply NoDup_seq].
    intros x y Hxy. by apply (inj pretty).
  - apply list_elem_of_fmap. exists h. split; [done|]. apply elem_of_seq. lia.
Qed.

Lemma all_hours_inv d c v :
  all_hours d !! c = Some v → v = Bool true ∧ ∃ h, h < d ∧ c = str h.
Proof.
  unfold all_hours. intros H. apply elem_of_list_to_map_2 in H.
  apply list_elem_of_fmap in H as (h & Heq & Hin). simplify_eq.
  split; [done|]. exists h. split; [|done]. apply elem_of_seq in Hin. lia.
Qed.

Lemma row_all_hours k d :
  k < 4 →
  (list_to_map ((λ cv : string * list cell, (cv.1, nth k cv.2 NaN))
     <$> ((λ h, (str h, replicate 4 (Bool true))) <$> seq 0 d))
    : gmap string cell) = all_hours d.
Proof.
  intros Hk. rewrite <- list_fmap_compose. unfold all_hours. f_equal.
  apply list_fmap_ext. intros i h _. simpl. f_equal.
  by destruct k as [|[|[|[|]]]]; [| | | |lia].
Qed.

Lemma fill_all_hours d r :
  horas r = all_hours d →
  (list_to_map ((λ c, (c, cell_at c r))
     <$> ((λ h, (str h, replicate 4 (Bool true))) <$> seq 0 d).*1)
    : gmap string cell) = all_hours d.
Proof.
  intros Hr. rewrite <- !list_fmap_compose. unfold all_hours at 1. f_equal.
  apply list_fmap_ext. intros i h Hh. apply lookup_seq in Hh as [-> Hh].
  simpl. unfold cell_at. by rewrite Hr, all_hours_lookup.
Qed.

Lemma default_team_eq name d :
  get_default_team_structure name d =
  Some {| race_config := {| start_hour := 14; duration := d |};
          pilots :=
            [ mkPilotRow "Piloto 1" (Bool false) (Bool false) (Some 0%Z) (all_hours d);
              mkPilotRow "Piloto 2" (Bool true) (Bool false) (Some 0%Z) (all_hours d);
              mkPilotRow "Piloto 3" (Bool false) (Bool true) (Some 0%Z) (all_hours d);
              mkPilotRow "Piloto 4" (Bool false) (Bool false) (Some 0%Z) (all_hours d) ];
          horario := replicate d (mkStint Sin_Asignar "") |}.
Proof.
  unfold get_default_team_structure, DataFrame_of_columns, horario_of_columns.
  rewrite (bool_decide_eq_true_2 (length (replicate d Sin_Asignar) = _))
    by (by rewrite !length_replicate).
  rewrite (bool_decide_eq_true_2 (_ ∧ _)).
  2:{ repeat split. apply Forall_fmap, Forall_forall. by intros h _. }
  cbn [mbind option_bind]. f_equal. f_equal.
  - unfold to_dict_records.
    set (hc := (λ h, (str h, replicate 4 (Bool true))) <$> seq 0 d).
    cbn. subst hc.
    rewrite !fill_all_hours by (cbn [horas]; apply row_all_hours; lia).
    done.
  - clear. induction d as [|d IH]; [done|]. simpl. by rewrite IH.
Qed.

(** C9.  For every duration offered at creation, [get_default_team_structure]
    returns a team: start hour 14 and the given duration; four pilot records
    with distinct names, every hour column of the race true and no other hour
    column, exactly one record that wants to start and exactly one that wants
    to finish, limit 0 for all; a schedule of exactly [d] slots, each
    'Sin Asignar' with an empty comment. *)
Theorem default_team_well_formed (team_name : string) (d : nat) :
  d ∈ allowed_durations →
  ∃ t, get_default_team_structure team_name d = Some t
    ∧ start_hour (race_config t) = 14%Z
    ∧ duration (race_config t) = d
    ∧ length (pilots t) = 4
    ∧ NoDup (Piloto <$> pilots t)
    ∧ (∀ p h, p ∈ pilots t → h < d → horas p !! str h = Some (Bool true))
    ∧ (∀ p c v, p ∈ pilots t → horas p !! c = Some v →
                v = Bool true ∧ ∃ h, h < d ∧ c = str h)
    ∧ Quiere_Empezar <$> pilots t = [Bool false; Bool true; Bool false; Bool false]
    ∧ Quiere_Terminar <$> pilots t = [Bool false; Bool false; Bool true; Bool false]
    ∧ length (filter (λ p, wantsToStart p = true) (pilots t)) = 1
    ∧ length (filter (λ p, wantsToFinish p = true) (pilots t)) = 1
    ∧ (∀ p, p ∈ pilots t → Horas_Limite p = Some 0%Z)
    ∧ length (horario t) = d
    ∧ (∀ s, s ∈ horario t → s = mkStint Sin_Asignar "").
Proof.
  intros _. eexists. split; [apply default_team_eq|].
  cbn [race_config start_hour duration pilots horario].
  split_and!; try done.
  - apply (bool_decide_unpack _). by vm_compute.
  - intros p h Hp Hh.
    repeat (apply elem_of_cons in Hp as [->|Hp]);
      [..|by apply elem_of_nil in Hp]; by apply all_hours_lookup.
  - intros p c v Hp Hv.
    repeat (apply elem_of_cons in Hp as [->|Hp]);
      [..|by apply elem_of_nil in Hp]; by eapply all_hours_inv.
  - intros p Hp.
    by repeat (apply elem_of_cons in Hp as [->|Hp]);
      [..|by apply elem_of_nil in Hp].
  - apply length_replicate.
  - intros s Hs. by apply elem_of_replicate in Hs as [-> _].
Qed.

Lemma default_team_well_formed_witness :
  24 ∈ allowed_durations
  ∧ ∃ t, get_default_team_structure "Equipo por Defecto" 24 = Some t
         ∧ length (horario t) = 24.
Proof.
  split; [by left|].
  destruct (default_team_well_formed "Equipo por Defecto" 24) as (t & Ht & H);
    [by left|].
  exists t. split; [done|]. apply H.
Defined.

(** ** The store *)

Lemma load_data_spec s :
  ∃ doc, load_data s = (Some doc, after_load doc s)
    ∧ match store s with
      | Some stored => doc = stored
      | None => ∃ t, get_default_team_structure "Equipo por Defecto" 24 = Some t
                     ∧ doc = {[ "Equipo por Defecto" := t ]}
      end.
Proof.
  unfold load_data, mbind, M_bind, find_one, after_load.
  destruct (store s) as [stored|] eqn:Hs.
  - exists stored. split; [|done]. unfold mret, M_ret, collection.
    by cbn [store events db selected_team newly_created_team].
  - pose proof (default_team_eq "Equipo por Defecto" 24) as Ht.
    eexists {[ "Equipo por Defecto" := _ ]}. split; [|by eauto].
    unfold lift. rewrite Ht. unfold insert_one, mret, M_ret, collection.
    cbn [store events db selected_team newly_created_team].
    by rewrite <- app_assoc.
Qed.

(** C7.  Saving what was just loaded leaves the stored document as the load
    left it: the call does not raise, a stored document is unchanged by
    [save_data (load_data ())], and the session's mapping is untouched.  (On an
    empty collection it is [load_data] that stores the default document.) *)
Theorem save_load_round_trip (s : State) :
  let r := (data ← load_data; save_data data) s in
  r.1 = Some ()
  ∧ store r.2 = store (load_data s).2
  ∧ db r.2 = db s
  ∧ ∀ doc, store s = Some doc → store r.2 = Some doc.
Proof.
  destruct (load_data_spec s) as (doc & Hload & Hdoc).
  unfold mbind, M_bind. rewrite Hload.
  unfold save_data, update_one, collection, after_load.
  cbn [fst snd store events db]. split_and!; try done.
  intros stored Hs. rewrite Hs in Hdoc. by subst.
Qed.

Lemma save_load_round_trip_witness :
  store stale_session = Some {[ "A" := team_A_assigned ]}
  ∧ store ((data ← load_data; save_data data) stale_session).2
    = Some {[ "A" := team_A_assigned ]}.
Proof.
  split; [reflexivity|].
  destruct (save_load_round_trip stale_session) as (_ & _ & _ & Hsame).
  apply Hsame. reflexivity.
Defined.

(** ** Team management *)

Lemma crear_equipo_rejected s name dur :
  name = "" ∨ is_Some (db s !! name) →
  crear_equipo name dur s = (Some Error_message, s).
Proof.
  intros Hbad. unfold crear_equipo, mbind, M_bind, get_db.
  destruct Hbad as [->|[t Ht]]; [done|].
  rewrite (bool_decide_eq_false_2 (db s !! name = None)) by congruence.
  by rewrite andb_false_r.
Qed.

Lemma eliminar_equipo_rejected s team_to_delete :
  size (db s) ≤ 1 →
  eliminar_equipo team_to_delete s = (Some Error_message, s).
Proof.
  intros Hsize. destruct team_to_delete as [t|];
    unfold eliminar_equipo, mbind, M_bind, get_db; [|done].
  rewrite (bool_decide_eq_false_2 (1 < size (db s))) by lia.
  by rewrite andb_false_r.
Qed.

(** C5.  A team whose name is empty or is a key of the session's mapping is
    not created, and the only team of the mapping is not deleted: the handler
    shows its message and the whole state (the session's mapping, the stored
    document, the calls made on the collection) is what it was. *)
Theorem validation_guards (s : State) :
  (∀ name dur, name = "" ∨ is_Some (db s !! name) →
               crear_equipo name dur s = (Some Error_message, s))
  ∧ (∀ team_to_delete, size (db s) = 1 →
                       eliminar_equipo team_to_delete s = (Some Error_message, s)).
Proof.
  split.
  - intros name dur. apply crear_equipo_rejected.
  - intros team_to_delete Hsize. apply eliminar_equipo_rejected. lia.
Qed.

Lemma validation_guards_witness :
  is_Some (db stale_session !! "A")
  ∧ size (db stale_session) = 1
  ∧ crear_equipo "A" 3 stale_session = (Some Error_message, stale_session)
  ∧ crear_equipo "" 3 stale_session = (Some Error_message, stale_session)
  ∧ eliminar_equipo (Some "A") stale_session
    = (Some Error_message, stale_session).
Proof.
  destruct (validation_guards stale_session) as [Hcrear Heliminar].
  assert (is_Some (db stale_session !! "A")) as Htaken
    by (exists team_A; reflexivity).
  assert (size (db stale_session) = 1) as Hone by reflexivity.
  split; [exact Htaken|]. split; [exact Hone|]. split; [|split].
  - apply Hcrear. right. exact Htaken.
  - apply Hcrear. left. reflexivity.
  - apply Heliminar. exact Hone.
Defined.

(** ** Schedules updated in place *)

Lemma slot_update_refl op i s : slot_update op i s s.
Proof. destruct op; simpl; auto. Qed.

Lemma slot_update_trans op i a b c :
  slot_update op i a b → slot_update op i b c → slot_update op i a c.
Proof.
  destruct op; simpl; try congruence.
  - intros [Hc1 Hp1] [Hc2 Hp2]. split; [congruence|].
    destruct Hp2 as [Hp2|Hp2]; [rewrite Hp2|]; auto.
  - intros [Hp1 Hc1] [Hp2 Hc2]. split.
    + destruct Hp2 as [Hp2|Hp2]; [rewrite Hp2|]; auto.
    + destruct Hc2 as [Hc2|Hc2]; [rewrite Hc2|]; auto.
Qed.

Lemma updated_in_place_refl op h : updated_in_place op h h.
Proof.
  split; [done|]. intros i s Hs. exists s. split; [done|].
  apply slot_update_refl.
Qed.

Lemma updated_in_place_trans op h1 h2 h3 :
  updated_in_place op h1 h2 → updated_in_place op h2 h3 →
  updated_in_place op h1 h3.
Proof.
  intros [Hl1 H1] [Hl2 H2]. split; [congruence|].
  intros i s3 Hs3. destruct (H2 i s3 Hs3) as (s2 & Hs2 & Hu2).
  destruct (H1 i s2 Hs2) as (s1 & Hs1 & Hu1).
  exists s1. split; [done|]. by eapply slot_update_trans.
Qed.

Lemma updated_in_place_insert op h i s s' :
  h !! i = Some s → slot_update op i s s' →
  updated_in_place op h (<[i := s']> h).
Proof.
  intros Hs Hu. split; [apply length_insert|].
  intros j sj Hj. destruct (decide (i = j)) as [->|Hne].
  - rewrite list_lookup_insert_eq in Hj by (by eapply lookup_lt_Some).
    simplify_eq. eauto.
  - rewrite list_lookup_insert_ne in Hj by done.
    exists sj. split; [done|]. apply slot_update_refl.
Qed.

Lemma reconcile_updated_in_place df edited h d h' :
  reconcile df h d = Some h' →
  updated_in_place (Guardar_configuracion_de_pilotos edited) h h'.
Proof.
  apply for_each_rel.
  - apply updated_in_place_refl.
  - apply updated_in_place_trans.
  - intros i x y. rewrite reconcile_step_pointwise. intros Hstep.
    apply pointwise_Some in Hstep as (s & s' & Hs & Hslot & ->).
    eapply updated_in_place_insert; [done|].
    unfold reconcile_slot in Hslot. simpl.
    case_bool_decide; [|by simplify_eq; auto].
    destruct (empty_frame _); simpl in Hslot; [by simplify_eq; auto|].
    destruct (disponible _ _ _) as [c|]; simplify_eq/=.
    destruct (truth c); simpl; auto.
Qed.

Lemma merge_step_updated_in_place shown nuevas nuevos i x y :
  merge_step shown nuevas nuevos i x = Some y →
  updated_in_place (Guardar_horario_asignado nuevas nuevos) x y.
Proof.
  unfold merge_step. intros Hstep.
  destruct (shown !! i) as [sh|]; simplify_eq/=.
  destruct (nuevas !! i) as [na|] eqn:Hna; simplify_eq/=.
  set (op := Guardar_horario_asignado nuevas nuevos).
  assert (∃ h1, (if bool_decide (na ≠ Piloto_al_Volante sh)
                 then x !! i ≫= λ slot,
                      Some (<[i := set_Piloto_al_Volante na slot]> x)
                 else Some x) = Some h1 ∧ updated_in_place op x h1)
    as (h1 & Hh1 & Hu1).
  { case_bool_decide.
    - destruct (x !! i) as [slot|] eqn:Hslot; [|by simplify_eq/=].
      eexists. split; [done|].
      eapply updated_in_place_insert; [done|]. simpl. auto.
    - eexists. split; [done|]. apply updated_in_place_refl. }
  rewrite Hh1 in Hstep. simpl in Hstep.
  destruct (nuevos !! i) as [nc|] eqn:Hnc; simplify_eq/=.
  eapply updated_in_place_trans; [done|]. clear Hh1 Hu1.
  destruct (bool_decide (nc ≠ Comentarios sh)).
  - destruct (h1 !! i) as [slot|] eqn:Hslot; simplify_eq/=.
    eapply updated_in_place_insert; [done|]. simpl. auto.
  - simplify_eq. apply updated_in_place_refl.
Qed.

Lemma merge_updated_in_place shown nuevas nuevos h d h' :
  merge_horario shown nuevas nuevos h d = Some h' →
  updated_in_place (Guardar_horario_asignado nuevas nuevos) h h'.
Proof.
  apply for_each_rel.
  - apply updated_in_place_refl.
  - apply updated_in_place_trans.
  - intros i x y. apply merge_step_updated_in_place.
Qed.

(** ** Merging a schedule *)

Lemma merge_step_pointwise shown nuevas nuevos i (h : list Stint) :
  i < length h →
  merge_step shown nuevas nuevos i h
  = pointwise (merge_slot shown nuevas nuevos) i h.
Proof.
  intros Hi. destruct (lookup_lt_is_Some_2 h i Hi) as [slot Hslot].
  unfold merge_step, pointwise, merge_slot. rewrite Hslot.
  destruct (shown !! i) as [sh|]; simpl; [|done].
  destruct (nuevas !! i) as [na|]; simpl; [|done].
  destruct (nuevos !! i) as [nc|]; simpl.
  2:{ by case_bool_decide. }
  destruct slot as [p c]. unfold set_Piloto_al_Volante, set_Comentarios.
  repeat case_bool_decide; simpl.
  - rewrite list_lookup_insert_eq by done. simpl.
    by rewrite list_insert_insert_eq.
  - by rewrite Hslot.
  - done.
  - by rewrite list_insert_id.
Qed.

Lemma merge_total_spec shown nuevas nuevos h d :
  d ≤ length shown → d ≤ length nuevas → d ≤ length nuevos → d ≤ length h →
  ∃ h', merge_horario shown nuevas nuevos h d = Some h'
        ∧ length h' = length h
        ∧ ∀ i, h' !! i = if decide (i < d)
                         then h !! i ≫= merge_slot shown nuevas nuevos i
                         else h !! i.
Proof.
  intros Hs Hn Hc Hh.
  assert (merge_horario shown nuevas nuevos h d
          = for_each (pointwise (merge_slot shown nuevas nuevos)) (seq 0 d) h)
    as ->.
  { apply (for_each_ext_inv (λ x, length x = length h)); [done| |].
    - intros i x y Hx Hy.
      apply pointwise_Some in Hy as (? & ? & _ & _ & ->).
      by rewrite length_insert.
    - intros i x Hi Hx. apply merge_step_pointwise.
      apply elem_of_seq in Hi. lia. }
  destruct (for_each_pointwise_total (merge_slot shown nuevas nuevos) 0 d h)
    as [h' Hrun].
  { intros i Hi. unfold merge_slot.
    destruct (lookup_lt_is_Some_2 h i) as [? ->]; [lia|].
    destruct (lookup_lt_is_Some_2 shown i) as [? ->]; [lia|].
    destruct (lookup_lt_is_Some_2 nuevas i) as [? ->]; [lia|].
    destruct (lookup_lt_is_Some_2 nuevos i) as [? ->]; [lia|]. done. }
  exists h'. split; [done|].
  apply for_each_pointwise_Some in Hrun as (Hl & Hin & Hout).
  split; [done|]. intros i. case_decide.
  - apply Hin. lia.
  - apply Hout. lia.
Qed.

(** ** The handlers, case by case *)

Ltac load_now :=
  match goal with
  | |- context [load_data ?st] =>
      let doc := fresh "doc" in
      let Hload := fresh "Hload" in
      let Hdoc := fresh "Hdoc" in
      destruct (load_data_spec st) as (doc & Hload & Hdoc);
      rewrite Hload;
      cbn [store events db selected_team newly_created_team] in Hdoc
  end.

Ltac fields :=
  cbn [store events db selected_team newly_created_team fst snd].

Lemma crear_equipo_accepted s name dur t :
  name ≠ "" → db s !! name = None →
  get_default_team_structure name dur = Some t →
  crear_equipo name dur s =
  (Some Rerun,
   {| store := Some (<[name := t]> (db s));
      events := events s ++ [Update_one (<[name := t]> (db s)); Find_one];
      db := <[name := t]> (db s);
      selected_team := selected_team s;
      newly_created_team := Some name |}).
Proof.
  intros Hname Hfree Ht. unfold crear_equipo, mbind, M_bind, get_db.
  rewrite !bool_decide_eq_true_2 by done. cbn [andb].
  unfold lift. rewrite Ht.
  unfold set_db, save_data, update_one, collection. fields.
  load_now. subst doc.
  unfold after_load, set_newly_created_team, mret, M_ret. fields.
  by rewrite <- app_assoc.
Qed.

Lemma eliminar_equipo_accepted s name t :
  name ≠ "" → 1 < size (db s) → db s !! name = Some t →
  eliminar_equipo (Some name) s =
  (None,
   {| store := Some (delete name (db s));
      events := events s ++ [Update_one (delete name (db s)); Find_one];
      db := delete name (db s);
      selected_team := selected_team s;
      newly_created_team := newly_created_team s |}).
Proof.
  intros Hname Hsize Ht. unfold eliminar_equipo, mbind, M_bind, get_db.
  rewrite !bool_decide_eq_true_2 by done. cbn [andb].
  unfold lift. rewrite Ht.
  unfold set_db, save_data, update_one, collection. fields.
  load_now. subst doc.
  unfold after_load, set_selected_team_after_widget. fields.
  by rewrite <- app_assoc.
Qed.

Lemma eliminar_equipo_cases team_to_delete s :
  eliminar_equipo team_to_delete s = (Some Error_message, s)
  ∨ (∃ name, team_to_delete = Some name ∧ db s !! name = None
             ∧ eliminar_equipo team_to_delete s = (None, s))
  ∨ (∃ name t, team_to_delete = Some name ∧ name ≠ "" ∧ 1 < size (db s)
               ∧ db s !! name = Some t).
Proof.
  destruct team_to_delete as [name|]; [|by left].
  unfold eliminar_equipo, mbind, M_bind, get_db.
  destruct (decide (name ≠ "")) as [Hname|Hname];
    [|left; by rewrite (bool_decide_eq_false_2 (name ≠ ""))].
  destruct (decide (1 < size (db s))) as [Hsize|Hsize];
    [|left; rewrite (bool_decide_eq_false_2 (1 < _)) by done;
      by rewrite andb_false_r].
  rewrite !bool_decide_eq_true_2 by done. cbn [andb]. unfold lift.
  destruct (db s !! name) as [t|] eqn:Ht.
  - right. right. eauto 10.
  - right. left. eauto.
Qed.

Lemma with_selected_team_cases k s :
  with_selected_team k s = (Some Stop, s)
  ∨ with_selected_team k s = (None, s)
  ∨ ∃ name team_data, selected_team s = Some name ∧ name ≠ ""
      ∧ db s !! name = Some team_data ∧ pilots team_data ≠ []
      ∧ with_selected_team k s = k name team_data s.
Proof.
  unfold with_selected_team.
  destruct (selected_team s) as [name|]; [|by left].
  case_bool_decide; [|by left].
  destruct (db s !! name) as [team_data|] eqn:Ht; [|by left].
  destruct (pilots team_data) as [|r rs] eqn:Hp; [by right; left|].
  right. right. exists name, team_data. rewrite Hp. by eauto 10.
Qed.

Lemma with_selected_team_reached k s name team_data :
  selected_team s = Some name → name ≠ "" → db s !! name = Some team_data →
  pilots team_data ≠ [] →
  with_selected_team k s = k name team_data s.
Proof.
  intros Hsel Hname Hteam Hp. unfold with_selected_team.
  rewrite Hsel, bool_decide_eq_true_2, Hteam by done.
  by destruct (pilots team_data).
Qed.

Lemma cambiar_hora_changed s name team_data h :
  h ≠ start_hour (race_config team_data) →
  (if bool_decide (h ≠ start_hour (race_config team_data))
   then session_db ← get_db;
        set_db (<[name := set_start_hour h team_data]> session_db);;
        save_data (<[name := set_start_hour h team_data]> session_db);;
        mret Rerun
   else mret Continue) s =
  (Some Rerun,
   {| store := Some (<[name := set_start_hour h team_data]> (db s));
      events := events s
                ++ [Update_one (<[name := set_start_hour h team_data]> (db s))];
      db := <[name := set_start_hour h team_data]> (db s);
      selected_team := selected_team s;
      newly_created_team := newly_created_team s |}).
Proof.
  intros Hh. rewrite bool_decide_eq_true_2 by done.
  unfold mbind, M_bind, get_db, set_db, save_data, update_one, collection,
    mret, M_ret.
  by fields.
Qed.

Lemma guardar_horario_saved s name team_data doc latest_team nuevas nuevos h' :
  selected_team s = Some name → name ≠ "" → db s !! name = Some team_data →
  pilots team_data ≠ [] →
  store s = Some doc → doc !! name = Some latest_team →
  merge_horario (horario team_data) nuevas nuevos (horario latest_team)
                (duration (race_config team_data)) = Some h' →
  guardar_horario_asignado nuevas nuevos s =
  (Some Rerun,
   {| store := Some (<[name := set_horario h' latest_team]> doc);
      events := events s
                ++ [Find_one;
                    Update_one (<[name := set_horario h' latest_team]> doc)];
      db := <[name := set_horario h' latest_team]> doc;
      selected_team := selected_team s;
      newly_created_team := newly_created_team s |}).
Proof.
  intros Hsel Hname Hteam Hp Hstore Hlatest Hmerge.
  unfold guardar_horario_asignado.
  rewrite (with_selected_team_reached _ _ _ _ Hsel Hname Hteam Hp).
  unfold mbind, M_bind. load_now. rewrite Hstore in Hdoc. subst doc0.
  unfold lift. rewrite Hlatest, Hmerge.
  unfold save_data, update_one, collection, set_db, mret, M_ret, after_load.
  fields. by rewrite Hstore, <- app_assoc, Hsel.
Qed.

(** C10.  Saving the schedule merges slot by slot into the document loaded
    at that moment.  When the page of the selected team is rendered (the team
    has pilot records) and the session's team, the reloaded team and the
    inputs cover the race, the handler ends with [st.rerun()] and stores the
    reloaded document with the selected team replaced by a team that has the
    race configuration and the pilots of the reloaded team and a schedule of
    the same length in which, for every hour of the race, the pilot (the
    comment) is the user's choice when it differs from what the page was
    rendered from, and otherwise the value of the reloaded document; slots
    beyond the race are those of the reloaded document.  The session ends
    with the document stored. *)
Theorem schedule_save_merges_per_slot
    (s : State) (name : string) (team_data latest_team : Team)
    (doc : gmap string Team) (nuevas nuevos : list string) :
  selected_team s = Some name → name ≠ "" → db s !! name = Some team_data →
  pilots team_data ≠ [] →
  store s = Some doc → doc !! name = Some latest_team →
  duration (race_config team_data) ≤ length (horario team_data) →
  duration (race_config team_data) ≤ length nuevas →
  duration (race_config team_data) ≤ length nuevos →
  duration (race_config team_data) ≤ length (horario latest_team) →
  ∃ t',
    (guardar_horario_asignado nuevas nuevos s).1 = Some Rerun
    ∧ store (guardar_horario_asignado nuevas nuevos s).2
      = Some (<[name := t']> doc)
    ∧ db (guardar_horario_asignado nuevas nuevos s).2 = <[name := t']> doc
    ∧ race_config t' = race_config latest_team
    ∧ pilots t' = pilots latest_team
    ∧ length (horario t') = length (horario latest_team)
    ∧ (∀ i shown fresh nueva comentario,
         i < duration (race_config team_data) →
         horario team_data !! i = Some shown →
         horario latest_team !! i = Some fresh →
         nuevas !! i = Some nueva → nuevos !! i = Some comentario →
         horario t' !! i = Some
           {| Piloto_al_Volante :=
                if decide (nueva = Piloto_al_Volante shown)
                then Piloto_al_Volante fresh else nueva;
              Comentarios :=
                if decide (comentario = Comentarios shown)
                then Comentarios fresh else comentario |})
    ∧ (∀ i, duration (race_config team_data) ≤ i →
            horario t' !! i = horario latest_team !! i).
Proof.
  intros Hsel Hname Hteam Hp Hstore Hlatest Hshown Hn Hc Hfresh.
  destruct (merge_total_spec (horario team_data) nuevas nuevos
              (horario latest_team) (duration (race_config team_data)))
    as (h' & Hmerge & Hlen & Hget); [done..|].
  exists (set_horario h' latest_team).
  rewrite (guardar_horario_saved s name team_data doc latest_team nuevas nuevos h')
    by done.
  fields. cbn [set_horario race_config pilots horario].
  split_and!; [done..| |].
  - intros i shown fresh nueva comentario Hi Hsh Hfr Hna Hco.
    rewrite Hget, decide_True by done. rewrite Hfr. simpl.
    unfold merge_slot. rewrite Hsh, Hna, Hco. simpl. f_equal.
    f_equal; case_bool_decide; by case_decide.
  - intros i Hi. rewrite Hget. by rewrite decide_False by lia.
Qed.

Lemma schedule_save_merges_per_slot_witness :
  ∃ t', store (guardar_horario_asignado
                 [Sin_Asignar; "Sam"; Sin_Asignar] [""; ""; "box"]
                 stale_session).2
        = Some (<["A" := t']> {[ "A" := team_A_assigned ]})
        ∧ pilots t' = [alex; sam]
        ∧ horario t' !! 0 = Some (mkStint "Alex" "")
        ∧ horario t' !! 1 = Some (mkStint "Sam" "")
        ∧ horario t' !! 2 = Some (mkStint Sin_Asignar "box")
        ∧ length (horario t') = 3.
Proof.
  destruct (schedule_save_merges_per_slot stale_session "A" team_A
              team_A_assigned {[ "A" := team_A_assigned ]}
              [Sin_Asignar; "Sam"; Sin_Asignar] [""; ""; "box"])
    as (t' & _ & Hstore & _ & _ & Hpilots & Hlen & Hslots & _);
    [reflexivity|discriminate|reflexivity|discriminate|reflexivity|reflexivity
    |simpl; lia..|].
  exists t'. split; [exact Hstore|]. split; [exact Hpilots|].
  split; [|split; [|split]].
  - apply (Hslots 0 unassigned (mkStint "Alex" "") Sin_Asignar "");
      [simpl; lia|reflexivity..].
  - apply (Hslots 1 unassigned unassigned "Sam" "");
      [simpl; lia|reflexivity..].
  - apply (Hslots 2 unassigned unassigned Sin_Asignar "box");
      [simpl; lia|reflexivity..].
  - exact Hlen.
Defined.

(** ** The shape of the schedules *)

Lemma default_team_shaped n d t :
  get_default_team_structure n d = Some t → schedule_shape t.
Proof.
  rewrite default_team_eq. intros [= <-]. unfold schedule_shape.
  cbn [horario race_config duration]. apply length_replicate.
Qed.

Lemma load_data_shaped s :
  shaped s →
  ∃ doc, load_data s = (Some doc, after_load doc s)
    ∧ map_Forall (λ _, schedule_shape) doc
    ∧ (∀ name t, doc !! name = Some t → origin s name t).
Proof.
  intros [Hstore _]. destruct (load_data_spec s) as (doc & Hload & Hdoc).
  exists doc. split; [done|].
  destruct (store s) as [stored|] eqn:Hs.
  - subst doc. split; [by apply Hstore|].
    intros name t Ht. right. left. eauto.
  - destruct Hdoc as (t & Ht & ->). split.
    + apply map_Forall_singleton. by eapply default_team_shaped.
    + intros name t' Hl. apply lookup_singleton_Some in Hl as [_ <-].
      right. right. eauto.
Qed.

Lemma traced_of_origin op s s' :
  (∀ doc' name t', store s' = Some doc' → doc' !! name = Some t' →
                   origin s name t') →
  traced op s s'.
Proof.
  intros Ho doc' name t' Hs Ht. exists t'. split; [by eauto|].
  split; [done|]. apply updated_in_place_refl.
Qed.

Lemma shaped_traced_same op s : shaped s → shaped s ∧ traced op s s.
Proof.
  intros Hs. split; [done|]. apply traced_of_origin.
  intros doc name t Hd Ht. right. left. eauto.
Qed.

Lemma shaped_traced_after_load op s doc :
  shaped s → map_Forall (λ _, schedule_shape) doc →
  (∀ name t, doc !! name = Some t → origin s name t) →
  shaped (after_load doc s) ∧ traced op s (after_load doc s).
Proof.
  intros [_ Hdb] Hdoc Ho. split.
  - split; [|done]. unfold after_load. cbn [store]. by intros ? [= <-].
  - apply traced_of_origin. unfold after_load. cbn [store].
    intros ? name t [= <-]. apply Ho.
Qed.

Lemma shaped_set_start_hour h t :
  schedule_shape t → schedule_shape (set_start_hour h t).
Proof. done. Qed.

Lemma crear_equipo_shaped name dur s :
  shaped s →
  shaped (crear_equipo name dur s).2
  ∧ traced (Crear_equipo name dur) s (crear_equipo name dur s).2.
Proof.
  intros Hs.
  destruct (decide (name = "")) as [Hname|Hname].
  { rewrite crear_equipo_rejected by auto. by apply shaped_traced_same. }
  destruct (db s !! name) as [t0|] eqn:Hfree.
  { rewrite crear_equipo_rejected by eauto. by apply shaped_traced_same. }
  pose proof (default_team_eq name dur) as Ht.
  rewrite (crear_equipo_accepted _ _ _ _ Hname Hfree Ht). cbn [snd].
  pose proof (default_team_shaped _ _ _ Ht) as Hshape.
  destruct Hs as [Hstore Hdb].
  assert (map_Forall (λ _, schedule_shape)
            (<[name := _]> (db s))) as Hnew
    by (apply map_Forall_insert_2; [exact Hshape|exact Hdb]).
  split.
  - split; cbn [store db]; [by intros ? [= <-]|done].
  - apply traced_of_origin. cbn [store]. intros ? n t' [= <-] Hl.
    apply lookup_insert_Some in Hl as [[<- <-]|[_ Hl]].
    + right. right. eauto.
    + by left.
Qed.

Lemma eliminar_equipo_shaped team_to_delete s :
  shaped s →
  shaped (eliminar_equipo team_to_delete s).2
  ∧ traced (Eliminar_equipo team_to_delete) s
           (eliminar_equipo team_to_delete s).2.
Proof.
  intros Hs.
  destruct (eliminar_equipo_cases team_to_delete s)
    as [->|[(name & -> & _ & ->)|(name & t & -> & Hname & Hsize & Ht)]];
    [by apply shaped_traced_same..|].
  rewrite (eliminar_equipo_accepted _ _ _ Hname Hsize Ht). cbn [snd].
  destruct Hs as [Hstore Hdb].
  assert (map_Forall (λ _, schedule_shape) (delete name (db s))) as Hnew
    by (by apply map_Forall_delete).
  split.
  - split; cbn [store db]; [by intros ? [= <-]|done].
  - apply traced_of_origin. cbn [store]. intros ? n t' [= <-] Hl.
    apply lookup_delete_Some in Hl as [_ Hl]. by left.
Qed.

Lemma cambiar_hora_de_inicio_shaped h s :
  shaped s →
  shaped (cambiar_hora_de_inicio h s).2
  ∧ traced (Cambiar_hora_de_inicio h) s (cambiar_hora_de_inicio h s).2.
Proof.
  intros Hs. unfold cambiar_hora_de_inicio.
  destruct (with_selected_team_cases
              (λ name team_data,
                 if bool_decide (h ≠ start_hour (race_config team_data))
                 then session_db ← get_db;
                      set_db (<[name := set_start_hour h team_data]> session_db);;
                      save_data (<[name := set_start_hour h team_data]> session_db);;
                      mret Rerun
                 else mret Continue) s)
    as [->|[->|(name & team_data & _ & _ & Hteam & _ & ->)]];
    [by apply shaped_traced_same..|].
  destruct (decide (h = start_hour (race_config team_data))) as [Heq|Hne].
  { rewrite bool_decide_eq_false_2 by naive_solver.
    by apply shaped_traced_same. }
  rewrite cambiar_hora_changed by done. cbn [snd].
  destruct Hs as [Hstore Hdb].
  assert (map_Forall (λ _, schedule_shape)
            (<[name := set_start_hour h team_data]> (db s))) as Hnew.
  { apply map_Forall_insert_2; [|done].
    apply shaped_set_start_hour. by eapply (Hdb name). }
  split.
  - split; cbn [store db]; [by intros ? [= <-]|done].
  - intros ? n t' [= <-] Hl. cbn [store] in *.
    apply lookup_insert_Some in Hl as [[<- <-]|[_ Hl]].
    + exists team_data. split; [by left|]. split; [done|].
      apply updated_in_place_refl.
    + exists t'. split; [by left|]. split; [done|].
      apply updated_in_place_refl.
Qed.

Lemma shaped_traced_saved op s doc name latest_team t' sel newly evs :
  shaped s → map_Forall (λ _, schedule_shape) doc →
  (∀ n t, doc !! n = Some t → origin s n t) →
  doc !! name = Some latest_team →
  duration (race_config t') = duration (race_config latest_team) →
  updated_in_place op (horario latest_team) (horario t') →
  let s' := {| store := Some (<[name := t']> doc); events := evs;
               db := <[name := t']> doc; selected_team := sel;
               newly_created_team := newly |} in
  shaped s' ∧ traced op s s'.
Proof.
  intros Hs Hdoc Ho Hlatest Hdur Hup s'.
  assert (map_Forall (λ _, schedule_shape) (<[name := t']> doc)) as Hnew.
  { apply map_Forall_insert_2; [|done]. unfold schedule_shape.
    destruct Hup as [-> _]. rewrite Hdur. by eapply (Hdoc name). }
  split.
  - split; subst s'; cbn [store db]; [by intros ? [= <-]|done].
  - intros ? n t'' [= <-] Hl.
    apply lookup_insert_Some in Hl as [[<- <-]|[_ Hl]].
    + exists latest_team. split; [by apply Ho|]. done.
    + exists t''. split; [by apply Ho|]. split; [done|].
      apply updated_in_place_refl.
Qed.

Lemma guardar_configuracion_de_pilotos_shaped edited s :
  shaped s →
  shaped (guardar_configuracion_de_pilotos edited s).2
  ∧ traced (Guardar_configuracion_de_pilotos edited) s
           (guardar_configuracion_de_pilotos edited s).2.
Proof.
  intros Hs. unfold guardar_configuracion_de_pilotos.
  match goal with
  | |- context [with_selected_team ?k s] =>
      destruct (with_selected_team_cases k s)
        as [->|[->|(name & team_data & _ & _ & Hteam & _ & ->)]]
  end; [by apply shaped_traced_same..|].
  unfold mbind, M_bind.
  destruct (load_data_shaped s Hs) as (doc & -> & Hdoc & Ho).
  unfold lift.
  destruct (doc !! name) as [latest_team|] eqn:Hlatest; cbv beta iota;
    [|by apply shaped_traced_after_load].
  match goal with
  | |- context [reconcile ?df ?h ?d] =>
      destruct (reconcile df h d) as [h'|] eqn:Hrun
  end; cbv beta iota; [|by apply shaped_traced_after_load].
  unfold save_data, update_one, collection, set_db, mret, M_ret, after_load.
  cbn [store events db selected_team newly_created_team fst snd].
  eapply shaped_traced_saved; [done..|].
  by eapply reconcile_updated_in_place.
Qed.

Lemma guardar_horario_asignado_shaped nuevas nuevos s :
  shaped s →
  shaped (guardar_horario_asignado nuevas nuevos s).2
  ∧ traced (Guardar_horario_asignado nuevas nuevos) s
           (guardar_horario_asignado nuevas nuevos s).2.
Proof.
  intros Hs. unfold guardar_horario_asignado.
  match goal with
  | |- context [with_selected_team ?k s] =>
      destruct (with_selected_team_cases k s)
        as [->|[->|(name & team_data & _ & _ & Hteam & _ & ->)]]
  end; [by apply shaped_traced_same..|].
  unfold mbind, M_bind.
  destruct (load_data_shaped s Hs) as (doc & -> & Hdoc & Ho).
  unfold lift.
  destruct (doc !! name) as [latest_team|] eqn:Hlatest; cbv beta iota;
    [|by apply shaped_traced_after_load].
  match goal with
  | |- context [merge_horario ?sh ?a ?c ?h ?d] =>
      destruct (merge_horario sh a c h d) as [h'|] eqn:Hrun
  end; cbv beta iota; [|by apply shaped_traced_after_load].
  unfold save_data, update_one, collection, set_db, mret, M_ret, after_load.
  cbn [store events db selected_team newly_created_team fst snd].
  eapply shaped_traced_saved; [done..|].
  by eapply merge_updated_in_place.
Qed.

(** C8.  The shape of the schedules is an invariant of every operation
    (creating and deleting a team, changing the start hour, saving the pilots
    table with its reconciliation, saving the schedule), whether it completes
    or raises: if every team of the stored document and of the session has one
    slot per hour of its duration, so it is afterwards; and every team of the
    stored document afterwards comes from a team of the session, of the
    document stored before or from [get_default_team_structure], with the same
    duration and with its schedule updated where it stands: the same length,
    and each slot obtained from the slot at the same index. *)
Theorem schedule_shape_invariant (op : Operation) (s : State) :
  shaped s → shaped (run op s).2 ∧ traced op s (run op s).2.
Proof.
  destruct op; simpl.
  - apply crear_equipo_shaped.
  - apply eliminar_equipo_shaped.
  - apply cambiar_hora_de_inicio_shaped.
  - apply guardar_configuracion_de_pilotos_shaped.
  - apply guardar_horario_asignado_shaped.
Qed.

Lemma schedule_shape_invariant_witness :
  shaped stale_session
  ∧ shaped (run (Cambiar_hora_de_inicio 15) stale_session).2
  ∧ traced (Cambiar_hora_de_inicio 15) stale_session
           (run (Cambiar_hora_de_inicio 15) stale_session).2.
Proof.
  assert (shaped stale_session) as Hshaped.
  { split.
    - intros doc Hdoc. injection Hdoc as <-.
      apply map_Forall_singleton. reflexivity.
    - apply map_Forall_singleton. reflexivity. }
  split; [exact Hshaped|].
  apply (schedule_shape_invariant (Cambiar_hora_de_inicio 15) stale_session).
  exact Hshaped.
Defined.

(** ** The summary *)

Lemma occurrences_pos v l : 0 < occurrences v l ↔ v ∈ l.
Proof.
  unfold occurrences. split.
  - intros Hpos. destruct (filter (λ x, x = v) l) as [|x l'] eqn:Hf;
      [simpl in Hpos; lia|].
    assert (x ∈ filter (λ x, x = v) l) as Hx by (rewrite Hf; left).
    apply list_elem_of_filter in Hx as [-> Hx]. done.
  - intros Hv.
    assert (v ∈ filter (λ x, x = v) l) as Hx
      by (by apply list_elem_of_filter).
    destruct (filter (λ x, x = v) l); [by apply elem_of_nil in Hx|simpl; lia].
Qed.

Lemma elem_of_value_counts l v k :
  (v, k) ∈ value_counts l ↔ v ∈ l ∧ k = occurrences v l.
Proof.
  unfold value_counts. rewrite merge_sort_Permutation.
  rewrite list_elem_of_fmap. split.
  - intros (x & [= -> ->] & Hx). split; [by apply elem_of_remove_dups|done].
  - intros [Hv ->]. exists v. split; [done|]. by apply elem_of_remove_dups.
Qed.


Lemma elem_of_resumen_df l v k :
  (v, k) ∈ resumen_df l ↔ v ∈ l ∧ v ≠ Sin_Asignar ∧ k = occurrences v l.
Proof.
  unfold resumen_df. rewrite list_elem_of_filter, elem_of_value_counts.
  simpl. tauto.
Qed.


Lemma alerta_Some df row a :
  alerta df row = Some a ↔
  ∃ r, record_of df row.1 = Some r
       ∧ Horas_Limite r = Some (limite a)
       ∧ (0 < limite a < Z.of_nat row.2)%Z
       ∧ piloto_nombre a = row.1 ∧ stints_asignados a = row.2.
Proof.
  unfold alerta, record_of, empty_frame.
  destruct (rows (rows_of_pilot df row.1)) as [|r rest]; simpl.
  { split; [done|]. by intros (r & ? & _). }
  destruct (Horas_Limite r) as [cap|] eqn:Hcap.
  2:{ split; [done|]. intros (r' & [= <-] & Hl & _). congruence. }
  split.
  - destruct (bool_decide (0 < cap)%Z) eqn:H0; [|done].
    destruct (bool_decide (cap < Z.of_nat row.2)%Z) eqn:H1; [|done].
    apply bool_decide_eq_true in H0, H1. simpl. intros [= <-]. simpl.
    exists r. split_and!; done || lia.
  - intros (r' & [= <-] & Hl & [H0 H1] & Hn & Hk).
    rewrite Hcap in Hl. simplify_eq.
    rewrite !bool_decide_eq_true_2 by done. simpl.
    destruct a; simpl in *; by subst.
Qed.

Lemma elem_of_alertas df l a :
  a ∈ alertas df l ↔
  piloto_nombre a ≠ Sin_Asignar
  ∧ stints_asignados a = occurrences (piloto_nombre a) l
  ∧ ∃ r, record_of df (piloto_nombre a) = Some r
         ∧ Horas_Limite r = Some (limite a)
         ∧ (0 < limite a < Z.of_nat (stints_asignados a))%Z.
Proof.
  unfold alertas. rewrite list_elem_of_omap. split.
  - intros ([v k] & Hrow & Ha). apply elem_of_resumen_df in Hrow as (_ & Hv & ->).
    apply alerta_Some in Ha as (r & Hr & Hl & Hb & Hn & Hk). simpl in *.
    rewrite Hn, Hk. split_and!; [done..|]. by exists r.
  - intros (Hv & Hk & r & Hr & Hl & Hb).
    exists (piloto_nombre a, stints_asignados a). split.
    + apply elem_of_resumen_df. split_and!; [|done..].
      apply occurrences_pos. lia.
    + apply alerta_Some. exists r. by simpl.
Qed.



Lemma filter_nil_Forall {A : Type} (P : A → Prop) `{∀ x, Decision (P x)}
    (l : list A) :
  Forall (λ x, ¬ P x) l → filter P l = [].
Proof.
  induction 1 as [|x l Hx _ IH]; [done|].
  by rewrite filter_cons, decide_False.
Qed.





(** ** Writes and loads *)

(** C2 fails on the code.  A session that loaded the document before another
    session assigned Alex to the first hour of team A changes the start hour,
    creates a team, deletes a team: each handler writes the session's mapping
    with no load before the write, and the stored assignment is lost (the
    deletion has written when it raises at line 125).  Saving the schedule
    loads first and keeps it. *)
Theorem stale_snapshot_written_without_load :
  let hora := run (Cambiar_hora_de_inicio 15) stale_session in
  let crear := run (Crear_equipo "B" 3) stale_session in
  let eliminar := run (Eliminar_equipo (Some "B")) stale_session_two_teams in
  let horario :=
    run (Guardar_horario_asignado
           [Sin_Asignar; "Sam"; Sin_Asignar] [""; ""; ""]) stale_session in
  stored_horario_A stale_session
    = Some [mkStint "Alex" ""; unassigned; unassigned]
  ∧ hora.1 = Some Rerun
  ∧ loads_before_writes false (events hora.2) = false
  ∧ stored_horario_A hora.2 = Some [unassigned; unassigned; unassigned]
  ∧ crear.1 = Some Rerun
  ∧ loads_before_writes false (events crear.2) = false
  ∧ stored_horario_A crear.2 = Some [unassigned; unassigned; unassigned]
  ∧ eliminar.1 = None
  ∧ loads_before_writes false (events eliminar.2) = false
  ∧ stored_horario_A eliminar.2 = Some [unassigned; unassigned; unassigned]
  ∧ horario.1 = Some Rerun
  ∧ loads_before_writes false (events horario.2) = true
  ∧ stored_horario_A horario.2
    = Some [mkStint "Alex" ""; mkStint "Sam" ""; unassigned].
Proof. by vm_compute. Qed.

(** * The rest of the page *)

(** ** Colours *)

Lemma palette_not_neutral c : c ∈ SAFE_COLOR_PALETTE → c ≠ "#f0f2f6".
Proof.
  intros Hc.
  assert (Forall (λ c, c ≠ "#f0f2f6") SAFE_COLOR_PALETTE) as Hall
    by (apply (bool_decide_unpack _); by vm_compute).
  by eapply (proj1 (Forall_forall _ _) Hall).
Qed.

Lemma hash_fallback_in_palette (z : Z) :
  ∃ c, SAFE_COLOR_PALETTE
         !! Z.to_nat (z `mod` Z.of_nat (length SAFE_COLOR_PALETTE))%Z = Some c
       ∧ c ∈ SAFE_COLOR_PALETTE.
Proof.
  destruct (lookup_lt_is_Some_2 SAFE_COLOR_PALETTE
              (Z.to_nat (z `mod` Z.of_nat (length SAFE_COLOR_PALETTE))%Z))
    as [c Hc].
  { change (length SAFE_COLOR_PALETTE) with 10.
    pose proof (Z.mod_pos_bound z 10). lia. }
  exists c. split; [done|]. by eapply list_elem_of_lookup_2.
Qed.

Lemma get_color_assigned hash name l :
  name ≠ Sin_Asignar → name ≠ "" →
  ∃ c, get_color_for_pilot hash name l = Some c ∧ c ∈ SAFE_COLOR_PALETTE.
Proof.
  intros Hs He. unfold get_color_for_pilot.
  rewrite !bool_decide_eq_false_2 by done. cbn [orb].
  destruct (index name l ≫= _) as [c|] eqn:Hc.
  - exists c. split; [done|].
    destruct (index name l) as [i|]; simplify_eq/=.
    by eapply list_elem_of_lookup_2.
  - apply hash_fallback_in_palette.
Qed.

(** X1.  [get_color_for_pilot] never raises, whatever the hash of the name:
    'Sin Asignar' and the empty name get the neutral colour, on which the
    text is black; every other name gets a colour of the palette, listed or
    not, and none of them is the neutral one, so its text is white. *)
Theorem get_color_for_pilot_total (hash : string → Z) (name : string)
    (l : list string) :
  is_Some (get_color_for_pilot hash name l)
  ∧ (name = Sin_Asignar ∨ name = "" →
     get_color_for_pilot hash name l = Some "#f0f2f6"
     ∧ text_color "#f0f2f6" = "black")
  ∧ (name ≠ Sin_Asignar → name ≠ "" →
     ∃ c, get_color_for_pilot hash name l = Some c
          ∧ c ∈ SAFE_COLOR_PALETTE ∧ text_color c = "white").
Proof.
  assert (name ≠ Sin_Asignar → name ≠ "" →
          ∃ c, get_color_for_pilot hash name l = Some c
               ∧ c ∈ SAFE_COLOR_PALETTE ∧ text_color c = "white") as Hassigned.
  { intros Hs He. destruct (get_color_assigned hash name l Hs He) as (c & Hc & Hin).
    exists c. split_and!; [done..|].
    unfold text_color. rewrite bool_decide_eq_true_2; [done|].
    by apply palette_not_neutral. }
  assert (name = Sin_Asignar ∨ name = "" →
          get_color_for_pilot hash name l = Some "#f0f2f6") as Hneutral.
  { intros Hn. unfold get_color_for_pilot.
    destruct Hn as [->| ->]; [done|].
    by rewrite (bool_decide_eq_true_2 ("" = "")), orb_true_r. }
  split_and!; [|by auto|done].
  destruct (decide (name = Sin_Asignar)) as [?|Hs]; [rewrite Hneutral; eauto|].
  destruct (decide (name = "")) as [?|He]; [rewrite Hneutral; eauto|].
  destruct (Hassigned Hs He) as (c & -> & _). eauto.
Qed.

Lemma get_color_for_pilot_total_witness :
  "Alex" ≠ Sin_Asignar ∧ "Alex" ≠ ""
  ∧ ∃ c, get_color_for_pilot (λ _, (-7)%Z) "Alex" ["Sam"] = Some c
         ∧ c ∈ SAFE_COLOR_PALETTE ∧ text_color c = "white".
Proof.
  split; [discriminate|]. split; [discriminate|].
  destruct (get_color_for_pilot_total (λ _, (-7)%Z) "Alex" ["Sam"])
    as (_ & _ & Hassigned).
  apply Hassigned; discriminate.
Defined.

(** The pilots listed *)

Lemma elem_of_unique x l : x ∈ unique l ↔ x ∈ l.
Proof.
  induction l as [|y l IH]; [done|]. simpl.
  rewrite !elem_of_cons, list_elem_of_filter, IH.
  destruct (decide (x = y)); tauto.
Qed.

Lemma NoDup_unique l : NoDup (unique l).
Proof.
  induction l as [|y l IH]; simpl; [constructor|].
  apply NoDup_cons. split.
  - rewrite list_elem_of_filter. intros [Hne _]. by apply Hne.
  - by apply NoDup_filter.
Qed.

Lemma index_NoDup l i x :
  NoDup l → l !! i = Some x → index x l = Some i.
Proof.
  intros Hnd Hi. unfold index.
  destruct (list_find (λ y, y = x) l) as [[j y]|] eqn:Hf.
  - apply list_find_Some in Hf as (Hj & -> & _). simpl. f_equal.
    by eapply NoDup_lookup.
  - apply list_find_None in Hf.
    apply list_elem_of_lookup_2 in Hi.
    by apply (proj1 (Forall_forall _ _) Hf) in Hi.
Qed.

Lemma get_color_listed hash l i x :
  NoDup l → l !! i = Some x → x ≠ Sin_Asignar → x ≠ "" →
  get_color_for_pilot hash x l
  = SAFE_COLOR_PALETTE !! (i `mod` length SAFE_COLOR_PALETTE).
Proof.
  intros Hnd Hi Hs He. unfold get_color_for_pilot.
  rewrite !bool_decide_eq_false_2 by done. cbn [orb].
  rewrite (index_NoDup l i x) by done. cbn [mbind option_bind].
  destruct (lookup_lt_is_Some_2 SAFE_COLOR_PALETTE
              (i `mod` length SAFE_COLOR_PALETTE)) as [c Hc].
  { apply Nat.mod_upper_bound. done. }
  by rewrite Hc.
Qed.

(** X2.  The list of pilots of the page names every pilot of the table once.
    A listed pilot at position [i] whose name is neither 'Sin Asignar' nor
    empty gets the colour [i mod 10] of the palette: with at most ten names
    listed any two such pilots have different colours, and two such pilots
    ten positions apart have the same colour.  A pilot named 'Sin Asignar'
    or with the empty name gets the neutral colour also when listed, so two
    listed pilots with these names share it. *)
Theorem colours_of_listed_pilots (hash : string → Z) (config_df : DataFrame) :
  NoDup (pilot_list config_df)
  ∧ (∀ x, x ∈ pilot_list config_df ↔ x ∈ Piloto <$> rows config_df)
  ∧ (∀ i x, pilot_list config_df !! i = Some x →
            x ≠ Sin_Asignar → x ≠ "" →
            get_color_for_pilot hash x (pilot_list config_df)
            = SAFE_COLOR_PALETTE !! (i `mod` 10))
  ∧ (length (pilot_list config_df) ≤ 10 →
     ∀ a b, a ∈ pilot_list config_df → b ∈ pilot_list config_df → a ≠ b →
            a ≠ Sin_Asignar → a ≠ "" → b ≠ Sin_Asignar → b ≠ "" →
            get_color_for_pilot hash a (pilot_list config_df)
            ≠ get_color_for_pilot hash b (pilot_list config_df))
  ∧ (∀ i a b, pilot_list config_df !! i = Some a →
              pilot_list config_df !! (i + 10) = Some b →
              a ≠ Sin_Asignar → a ≠ "" → b ≠ Sin_Asignar → b ≠ "" →
              get_color_for_pilot hash a (pilot_list config_df)
              = get_color_for_pilot hash b (pilot_list config_df))
  ∧ get_color_for_pilot hash Sin_Asignar (pilot_list config_df)
    = Some "#f0f2f6"
  ∧ get_color_for_pilot hash "" (pilot_list config_df) = Some "#f0f2f6".
Proof.
  pose proof (NoDup_unique (Piloto <$> rows config_df)) as Hnd.
  fold (pilot_list config_df) in Hnd.
  split_and!; [| | | | |done|done].
  - done.
  - intros x. apply elem_of_unique.
  - intros i x Hi Hs He. by apply get_color_listed.
  - intros Hlen a b Ha Hb Hab Has Hae Hbs Hbe.
    apply list_elem_of_lookup in Ha as [i Hi].
    apply list_elem_of_lookup in Hb as [j Hj].
    rewrite (get_color_listed hash _ i a), (get_color_listed hash _ j b) by done.
    pose proof (lookup_lt_Some _ _ _ Hi). pose proof (lookup_lt_Some _ _ _ Hj).
    change (length SAFE_COLOR_PALETTE) with 10.
    rewrite !Nat.mod_small by lia. intros Heq.
    assert (NoDup SAFE_COLOR_PALETTE) as Hpal
      by (apply (bool_decide_unpack _); by vm_compute).
    destruct (lookup_lt_is_Some_2 SAFE_COLOR_PALETTE i) as [c Hc];
      [simpl; lia|].
    assert (i = j) as -> by (eapply NoDup_lookup; [done..|congruence]).
    congruence.
  - intros i a b Hi Hj Has Hae Hbs Hbe.
    rewrite (get_color_listed hash _ i a), (get_color_listed hash _ (i + 10) b)
      by done.
    change (length SAFE_COLOR_PALETTE) with 10. f_equal.
    rewrite <- (Nat.Div0.add_mod_idemp_r i 10 10). by rewrite Nat.Div0.mod_same, Nat.add_0_r.
Qed.

Lemma colours_of_listed_pilots_witness :
  length (pilot_list (DataFrame_of_records [alex; sam; alex])) ≤ 10
  ∧ pilot_list (DataFrame_of_records [alex; sam; alex]) = ["Alex"; "Sam"]
  ∧ get_color_for_pilot (λ _, 3%Z) "Alex"
      (pilot_list (DataFrame_of_records [alex; sam; alex]))
    ≠ get_color_for_pilot (λ _, 3%Z) "Sam"
        (pilot_list (DataFrame_of_records [alex; sam; alex])).
Proof.
  assert (pilot_list (DataFrame_of_records [alex; sam; alex])
          = ["Alex"; "Sam"]) as Hl by reflexivity.
  split; [rewrite Hl; simpl; lia|]. split; [exact Hl|].
  destruct (colours_of_listed_pilots (λ _, 3%Z)
              (DataFrame_of_records [alex; sam; alex]))
    as (_ & _ & _ & Hdistinct & _ & _ & _).
  apply Hdistinct; [rewrite Hl; simpl; lia|rewrite Hl; left
                   |rewrite Hl; right; left|discriminate..].
Defined.

(** ** Hour labels *)

Lemma hour_label_lookup start h :
  ((λ n, two_digits (Z.of_nat n) +:+ ":00") <$> seq 0 24)
    !! Z.to_nat ((start + Z.of_nat h) `mod` 24)%Z
  = Some (hour_label start h).
Proof.
  pose proof (Z.mod_pos_bound (start + Z.of_nat h) 24) as Hb.
  rewrite list_lookup_fmap, lookup_seq_lt by lia.
  cbn [fmap option_fmap option_map]. unfold hour_label.
  by rewrite Nat.add_0_l, Z2Nat.id by lia.
Qed.

Lemma hour_label_inj start h h' :
  h < 24 → h' < 24 → hour_label start h = hour_label start h' → h = h'.
Proof.
  intros Hh Hh' Heq.
  assert (NoDup ((λ n, two_digits (Z.of_nat n) +:+ ":00") <$> seq 0 24))
    as Hnd by (apply (bool_decide_unpack _); by vm_compute).
  pose proof (hour_label_lookup start h) as H1.
  pose proof (hour_label_lookup start h') as H2.
  rewrite <- Heq in H2.
  pose proof (NoDup_lookup _ _ _ _ Hnd H1 H2) as Hmod.
  pose proof (Z.mod_pos_bound (start + Z.of_nat h) 24).
  pose proof (Z.mod_pos_bound (start + Z.of_nat h') 24).
  assert ((start + Z.of_nat h) `mod` 24 = (start + Z.of_nat h') `mod` 24)%Z
    as Hz by lia.
  clear -Hz Hh Hh'. Z.div_mod_to_equations. lia.
Qed.

Lemma hour_label_period start h :
  hour_label start (h + 24) = hour_label start h.
Proof.
  unfold hour_label. do 2 f_equal.
  rewrite Nat2Z.inj_add, Z.add_assoc.
  change (Z.of_nat 24) with (1 * 24)%Z. apply Z_mod_plus_full.
Qed.

Lemma NoDup_dynamic_hour_labels start d :
  d ≤ 24 → NoDup (dynamic_hour_labels start d).
Proof.
  intros Hd. unfold dynamic_hour_labels.
  apply NoDup_fmap_2_strong; [|apply NoDup_seq].
  intros h h' Hh Hh' Heq. apply elem_of_seq in Hh, Hh'.
  apply (hour_label_inj start); [lia..|done].
Qed.

Lemma column_map_lookup start d h :
  h < d → column_map start d !! str h = Some (hour_label start h).
Proof.
  intros Hh. unfold column_map. apply elem_of_list_to_map_1.
  - rewrite fmap_reverse, <- list_fmap_compose. rewrite reverse_Permutation.
    apply NoDup_fmap_2; [|apply NoDup_seq].
    intros x y Hxy. by apply (inj pretty).
  - apply elem_of_reverse, list_elem_of_fmap. exists h.
    split; [done|]. apply elem_of_seq. lia.
Qed.

Lemma reverse_column_map_lookup start d h :
  d ≤ 24 → h < d →
  reverse_column_map start d !! hour_label start h = Some (str h).
Proof.
  intros Hd Hh. unfold reverse_column_map. apply elem_of_list_to_map_1.
  - rewrite fmap_reverse, <- list_fmap_compose. rewrite reverse_Permutation.
    by apply (NoDup_dynamic_hour_labels start d).
  - apply elem_of_reverse, list_elem_of_fmap. exists h.
    split; [done|]. apply elem_of_seq. lia.
Qed.

(** X9.  For a race of at most 24 hours the labels of the hours are
    pairwise different, [column_map] sends the stored name of each hour to
    its label and [reverse_column_map] sends the label back to the stored
    name.  Labels repeat after 24 hours, so beyond 24 hours two columns
    would get the same label. *)
Theorem hour_labels_invertible (start : Z) (d : nat) :
  (d ≤ 24 →
   NoDup (dynamic_hour_labels start d)
   ∧ ∀ h, h < d →
       column_map start d !! str h = Some (hour_label start h)
       ∧ reverse_column_map start d !! hour_label start h = Some (str h))
  ∧ (∀ h, hour_label start (h + 24) = hour_label start h)
  ∧ (24 < d → ¬ NoDup (dynamic_hour_labels start d)).
Proof.
  split_and!.
  - intros Hd. split; [by apply NoDup_dynamic_hour_labels|].
    intros h Hh. split.
    + by apply column_map_lookup.
    + by apply reverse_column_map_lookup.
  - apply hour_label_period.
  - intros Hd Hnd. unfold dynamic_hour_labels in Hnd.
    assert (0 = 24) as Habs; [|lia].
    eapply (NoDup_lookup _ 0 24 _ Hnd).
    + rewrite list_lookup_fmap, lookup_seq_lt by lia. done.
    + rewrite list_lookup_fmap, lookup_seq_lt by lia. simpl.
      f_equal. apply (hour_label_period start 0).
Qed.

Lemma hour_labels_invertible_witness :
  3 ≤ 24 ∧ 1 < 3
  ∧ column_map 22 3 !! str 1 = Some "23:00"
  ∧ reverse_column_map 22 3 !! hour_label 22 1 = Some (str 1).
Proof.
  split; [lia|]. split; [lia|].
  destruct (hour_labels_invertible 22 3) as (Hinv & _ & _).
  destruct Hinv as [_ Hh]; [lia|].
  apply (Hh 1). lia.
Defined.

(** ** The outcomes of the handlers *)

Lemma cambiar_hora_de_inicio_cases h s :
  (∃ o, o ≠ Some Rerun ∧ cambiar_hora_de_inicio h s = (o, s))
  ∨ ∃ name team_data,
      selected_team s = Some name ∧ db s !! name = Some team_data
      ∧ pilots team_data ≠ []
      ∧ h ≠ start_hour (race_config team_data)
      ∧ cambiar_hora_de_inicio h s
        = (Some Rerun,
           after_save (<[name := set_start_hour h team_data]> (db s)) s).
Proof.
  unfold cambiar_hora_de_inicio.
  match goal with
  | |- context [with_selected_team ?k s] =>
      destruct (with_selected_team_cases k s)
        as [->|[->|(name & team_data & Hsel & _ & Hteam & Hp & ->)]]
  end; [left; by exists (Some Stop)|left; by exists None|].
  destruct (decide (h = start_hour (race_config team_data))) as [Heq|Hne].
  - left. exists (Some Continue). split; [done|].
    by rewrite bool_decide_eq_false_2 by tauto.
  - right. exists name, team_data. split_and!; [done..|].
    by rewrite cambiar_hora_changed.
Qed.

Lemma guardar_configuracion_de_pilotos_cases edited s :
  (∃ o, o ≠ Some Rerun ∧ guardar_configuracion_de_pilotos edited s = (o, s))
  ∨ (∃ doc, load_data s = (Some doc, after_load doc s)
            ∧ guardar_configuracion_de_pilotos edited s
              = (None, after_load doc s))
  ∨ ∃ doc name team_data latest_team h',
      load_data s = (Some doc, after_load doc s)
      ∧ selected_team s = Some name ∧ db s !! name = Some team_data
      ∧ pilots team_data ≠ []
      ∧ doc !! name = Some latest_team
      ∧ reconcile
          (rename (reverse_column_map (start_hour (race_config team_data))
                                      (duration (race_config team_data)))
                  edited)
          (horario latest_team) (duration (race_config team_data)) = Some h'
      ∧ guardar_configuracion_de_pilotos edited s
        = (Some Rerun,
           after_save
             (<[name := set_pilots_horario
                  (to_dict_records
                     (rename (reverse_column_map
                                (start_hour (race_config team_data))
                                (duration (race_config team_data)))
                             edited))
                  h' latest_team]> doc)
             (after_load doc s)).
Proof.
  unfold guardar_configuracion_de_pilotos.
  match goal with
  | |- context [with_selected_team ?k s] =>
      destruct (with_selected_team_cases k s)
        as [->|[->|(name & team_data & Hsel & _ & Hteam & Hp & ->)]]
  end; [left; by exists (Some Stop)|left; by exists None|].
  right. unfold mbind, M_bind.
  destruct (load_data_spec s) as (doc & Hload & _). rewrite Hload.
  unfold lift.
  destruct (doc !! name) as [latest_team|] eqn:Hlatest; cbv beta iota;
    [|left; by eauto].
  match goal with
  | |- context [reconcile ?df ?h ?d] =>
      destruct (reconcile df h d) as [h'|] eqn:Hrun
  end; cbv beta iota; [|left; by eauto].
  right. exists doc, name, team_data, latest_team, h'.
  split_and!; [done..|].
  by unfold save_data, update_one, collection, set_db, mret, M_ret, after_save.
Qed.

Lemma guardar_horario_asignado_cases nuevas nuevos s :
  (∃ o, o ≠ Some Rerun ∧ guardar_horario_asignado nuevas nuevos s = (o, s))
  ∨ (∃ doc, load_data s = (Some doc, after_load doc s)
            ∧ guardar_horario_asignado nuevas nuevos s
              = (None, after_load doc s))
  ∨ ∃ doc name team_data latest_team h',
      load_data s = (Some doc, after_load doc s)
      ∧ selected_team s = Some name ∧ db s !! name = Some team_data
      ∧ pilots team_data ≠ []
      ∧ doc !! name = Some latest_team
      ∧ merge_horario (horario team_data) nuevas nuevos (horario latest_team)
                      (duration (race_config team_data)) = Some h'
      ∧ guardar_horario_asignado nuevas nuevos s
        = (Some Rerun,
           after_save (<[name := set_horario h' latest_team]> doc)
                      (after_load doc s)).
Proof.
  unfold guardar_horario_asignado.
  match goal with
  | |- context [with_selected_team ?k s] =>
      destruct (with_selected_team_cases k s)
        as [->|[->|(name & team_data & Hsel & _ & Hteam & Hp & ->)]]
  end; [left; by exists (Some Stop)|left; by exists None|].
  right. unfold mbind, M_bind.
  destruct (load_data_spec s) as (doc & Hload & _). rewrite Hload.
  unfold lift.
  destruct (doc !! name) as [latest_team|] eqn:Hlatest; cbv beta iota;
    [|left; by eauto].
  match goal with
  | |- context [merge_horario ?sh ?a ?c ?h ?d] =>
      destruct (merge_horario sh a c h d) as [h'|] eqn:Hrun
  end; cbv beta iota; [|left; by eauto].
  right. exists doc, name, team_data, latest_team, h'.
  split_and!; [done..|].
  by unfold save_data, update_one, collection, set_db, mret, M_ret, after_save.
Qed.

(** What an operation leaves behind: nothing, a load, the write of an
    accepted deletion, or a write followed by [st.rerun()]. *)
Lemma run_cases op s :
  (run op s).2 = s ∧ (run op s).1 ≠ Some Rerun
  ∨ (∃ doc, load_data s = (Some doc, after_load doc s)
            ∧ run op s = (None, after_load doc s))
  ∨ (∃ name t, op = Eliminar_equipo (Some name) ∧ name ≠ ""
               ∧ 1 < size (db s) ∧ db s !! name = Some t)
  ∨ ∃ doc' evs sel newly,
      run op s = (Some Rerun,
                  {| store := Some doc'; events := events s ++ evs;
                     db := doc'; selected_team := sel;
                     newly_created_team := newly |})
      ∧ filter (λ e, is_update e = true) evs = [Update_one doc'].
Proof.
  destruct op as [name dur|team|h|edited|nuevas nuevos]; simpl.
  - destruct (decide (name = "")) as [Hname|Hname].
    { left. by rewrite crear_equipo_rejected by auto. }
    destruct (db s !! name) as [t0|] eqn:Hfree.
    { left. by rewrite crear_equipo_rejected by eauto. }
    right. right. right.
    rewrite (crear_equipo_accepted _ _ _ _ Hname Hfree (default_team_eq _ _)).
    eexists _, _, _, _. split; [done|]. done.
  - destruct (eliminar_equipo_cases team s)
      as [->|[(name & -> & _ & ->)|(name & t & -> & Hname & Hsize & Ht)]];
      [by left..|].
    right. right. left. by eauto 10.
  - destruct (cambiar_hora_de_inicio_cases h s)
      as [(o & Ho & ->)|(name & team_data & _ & _ & _ & _ & ->)]; [by left|].
    right. right. right. unfold after_save.
    eexists _, _, _, _. split; [done|]. done.
  - destruct (guardar_configuracion_de_pilotos_cases edited s)
      as [(o & Ho & ->)|[(doc & Hload & ->)
         |(doc & ? & ? & ? & ? & Hload & _ & _ & _ & _ & _ & ->)]];
      [by left|right; left; by eauto|].
    right. right. right. unfold after_save, after_load.
    cbn [store events db selected_team newly_created_team].
    rewrite <- app_assoc.
    eexists _, _, _, _. split; [done|].
    by destruct (store s).
  - destruct (guardar_horario_asignado_cases nuevas nuevos s)
      as [(o & Ho & ->)|[(doc & Hload & ->)
         |(doc & ? & ? & ? & ? & Hload & _ & _ & _ & _ & _ & ->)]];
      [by left|right; left; by eauto|].
    right. right. right. unfold after_save, after_load.
    cbn [store events db selected_team newly_created_team].
    rewrite <- app_assoc.
    eexists _, _, _, _. split; [done|].
    by destruct (store s).
Qed.

(** X4.  Every operation that ends with [st.rerun()] has made exactly one
    write, and leaves the session's mapping equal to the stored document,
    which is the document of that write. *)
Theorem session_in_sync_after_write (op : Operation) (s : State) :
  (run op s).1 = Some Rerun →
  ∃ written,
    store (run op s).2 = Some written
    ∧ db (run op s).2 = written
    ∧ events (run op s).2 = events s ++ new_events s (run op s).2
    ∧ filter (λ e, is_update e = true) (new_events s (run op s).2)
      = [Update_one written].
Proof.
  intros Hrerun.
  destruct (run_cases op s)
    as [[_ Hno]|[(doc & _ & Hrun)|[(name & t & -> & Hname & Hsize & Ht)
       |(doc' & evs & sel & newly & Hrun & Hw)]]].
  - done.
  - by rewrite Hrun in Hrerun.
  - simpl in Hrerun.
    by rewrite (eliminar_equipo_accepted _ _ _ Hname Hsize Ht) in Hrerun.
  - rewrite Hrun. cbn [snd store db]. exists doc'.
    unfold new_events. cbn [events]. by rewrite drop_app_length.
Qed.

Lemma session_in_sync_after_write_witness :
  (run (Cambiar_hora_de_inicio 15) stale_session).1 = Some Rerun
  ∧ store (run (Cambiar_hora_de_inicio 15) stale_session).2
    = Some (db (run (Cambiar_hora_de_inicio 15) stale_session).2).
Proof.
  split; [reflexivity|].
  destruct (session_in_sync_after_write (Cambiar_hora_de_inicio 15)
              stale_session) as (written & -> & -> & _); reflexivity.
Defined.



(** X17.  The two save handlers load before they write, in every state
    and for every input: among the calls they make on the collection, each
    [update_one] comes after a [find_one] of the same pass. *)
Theorem save_handlers_load_before_writing (s : State) :
  (∀ edited,
     events (guardar_configuracion_de_pilotos edited s).2
     = events s ++ new_events s (guardar_configuracion_de_pilotos edited s).2
     ∧ loads_before_writes false
         (new_events s (guardar_configuracion_de_pilotos edited s).2) = true)
  ∧ (∀ nuevas nuevos,
       events (guardar_horario_asignado nuevas nuevos s).2
       = events s ++ new_events s (guardar_horario_asignado nuevas nuevos s).2
       ∧ loads_before_writes false
           (new_events s (guardar_horario_asignado nuevas nuevos s).2) = true).
Proof.
  split.
  - intros edited.
    destruct (guardar_configuracion_de_pilotos_cases edited s)
      as [(o & _ & ->)|[(doc & _ & ->)
         |(doc & ? & ? & ? & ? & _ & _ & _ & _ & _ & _ & ->)]];
      unfold new_events, after_save, after_load;
      cbn [snd store events db selected_team newly_created_team].
    + by rewrite drop_all, app_nil_r.
    + rewrite drop_app_length. by destruct (store s).
    + rewrite <- app_assoc, drop_app_length. by destruct (store s).
  - intros nuevas nuevos.
    destruct (guardar_horario_asignado_cases nuevas nuevos s)
      as [(o & _ & ->)|[(doc & _ & ->)
         |(doc & ? & ? & ? & ? & _ & _ & _ & _ & _ & _ & ->)]];
      unfold new_events, after_save, after_load;
      cbn [snd store events db selected_team newly_created_team].
    + by rewrite drop_all, app_nil_r.
    + rewrite drop_app_length. by destruct (store s).
    + rewrite <- app_assoc, drop_app_length. by destruct (store s).
Qed.

(** ** Loading *)

Lemma new_events_after_load doc s :
  new_events s (after_load doc s)
  = Find_one :: match store s with
                | Some _ => []
                | None => [Insert_one doc]
                end.
Proof.
  unfold new_events, after_load. cbn [events]. apply drop_app_length.
Qed.

(** X3.  [load_data] never raises.  With a stored document it returns it
    after one [find_one] and changes nothing; on an empty collection it
    inserts and returns the document with the single team 'Equipo por
    Defecto' of 24 hours.  A second [load_data] returns the same document
    with one [find_one] and no insert.  A new session ends with the stored
    document as its mapping. *)
Theorem load_data_bootstraps_once (s : State) :
  ∃ doc,
    load_data s = (Some doc, after_load doc s)
    ∧ (load_data (after_load doc s)).1 = Some doc
    ∧ store (load_data (after_load doc s)).2 = Some doc
    ∧ new_events (after_load doc s) (load_data (after_load doc s)).2
      = [Find_one]
    ∧ (∀ stored, store s = Some stored →
         doc = stored ∧ new_events s (after_load doc s) = [Find_one])
    ∧ (store s = None →
       new_events s (after_load doc s) = [Find_one; Insert_one doc]
       ∧ ∃ t, doc = {[ "Equipo por Defecto" := t ]}
              ∧ get_default_team_structure "Equipo por Defecto" 24 = Some t
              ∧ duration (race_config t) = 24
              ∧ length (horario t) = 24)
    ∧ (new_session s).1 = Some ()
    ∧ store (new_session s).2 = Some doc
    ∧ db (new_session s).2 = doc.
Proof.
  destruct (load_data_spec s) as (doc & Hload & Hdoc). exists doc.
  destruct (load_data_spec (after_load doc s)) as (doc2 & Hload2 & Hdoc2).
  cbn [after_load store] in Hdoc2. subst doc2.
  rewrite Hload2. cbn [fst snd].
  split_and!; try done.
  - by rewrite new_events_after_load.
  - intros stored Hs. rewrite Hs in Hdoc. split; [done|].
    by rewrite new_events_after_load, Hs.
  - intros Hs. rewrite Hs in Hdoc. destruct Hdoc as (t & Ht & Hd). split.
    + by rewrite new_events_after_load, Hs.
    + exists t. split_and!; [done..| |].
      * pose proof (default_team_eq "Equipo por Defecto" 24) as Ht'.
        rewrite Ht in Ht'. by injection Ht' as ->.
      * pose proof (default_team_eq "Equipo por Defecto" 24) as Ht'.
        rewrite Ht in Ht'. injection Ht' as ->. reflexivity.
  - unfold new_session, mbind, M_bind. by rewrite Hload.
  - unfold new_session, mbind, M_bind. by rewrite Hload.
  - unfold new_session, mbind, M_bind. by rewrite Hload.
Qed.

Lemma load_data_bootstraps_once_witness :
  ∃ doc t,
    store {| store := None; events := []; db := ∅; selected_team := None;
             newly_created_team := None |} = None
    ∧ doc = {[ "Equipo por Defecto" := t ]}
    ∧ length (horario t) = 24
    ∧ store (new_session
               {| store := None; events := []; db := ∅;
                  selected_team := None; newly_created_team := None |}).2
      = Some doc.
Proof.
  destruct (load_data_bootstraps_once
              {| store := None; events := []; db := ∅; selected_team := None;
                 newly_created_team := None |})
    as (doc & _ & _ & _ & _ & _ & Hempty & _ & Hstore & _).
  destruct (Hempty eq_refl) as (_ & t & Hdoc & _ & _ & Hlen).
  exists doc, t. split; [reflexivity|]. split; [exact Hdoc|].
  split; [exact Hlen|exact Hstore].
Defined.

(** ** Teams *)

(** X6.  The delete handler never reaches [st.rerun()] and never empties
    the mapping of teams: after it a non-empty mapping is still non-empty.
    An accepted deletion (a named team of a mapping of several teams) removes
    the team from the session's mapping and stores that mapping, so the
    stored document becomes the session's mapping without the team; it then
    reloads and raises at line 125, with the selection as it was.  For a
    name that is not a key of a mapping of several teams, [del] raises and
    nothing changes. *)
Theorem eliminar_equipo_keeps_a_team (team_to_delete : option string)
    (s : State) :
  (db s ≠ ∅ → db (eliminar_equipo team_to_delete s).2 ≠ ∅)
  ∧ (eliminar_equipo team_to_delete s).1 ≠ Some Rerun
  ∧ (∀ name, team_to_delete = Some name → name ≠ "" → 1 < size (db s) →
             is_Some (db s !! name) →
             (eliminar_equipo team_to_delete s).1 = None
             ∧ db (eliminar_equipo team_to_delete s).2 = delete name (db s)
             ∧ store (eliminar_equipo team_to_delete s).2
               = Some (delete name (db s))
             ∧ size (db s) = S (size (db (eliminar_equipo team_to_delete s).2))
             ∧ selected_team (eliminar_equipo team_to_delete s).2
               = selected_team s
             ∧ new_events s (eliminar_equipo team_to_delete s).2
               = [Update_one (delete name (db s)); Find_one])
  ∧ (∀ name, team_to_delete = Some name → db s !! name = None →
             name ≠ "" → 1 < size (db s) →
             eliminar_equipo team_to_delete s = (None, s)).
Proof.
  destruct (eliminar_equipo_cases team_to_delete s)
    as [Hrun|[(name & -> & Hnone & Hrun)|(name & t & -> & Hname & Hsize & Ht)]].
  - rewrite Hrun. cbn [fst snd]. split_and!; [done|done| |].
    + intros name -> Hname Hsize [t Ht]. exfalso. revert Hrun.
      unfold eliminar_equipo, mbind, M_bind, get_db.
      rewrite !bool_decide_eq_true_2 by done. cbn [andb]. unfold lift.
      rewrite Ht. unfold set_db, save_data, update_one, collection. fields.
      load_now. unfold set_selected_team_after_widget. discriminate.
    + intros name -> Hnone Hname Hsize. exfalso. revert Hrun.
      unfold eliminar_equipo, mbind, M_bind, get_db.
      rewrite !bool_decide_eq_true_2 by done. cbn [andb]. unfold lift.
      rewrite Hnone. discriminate.
  - rewrite Hrun. cbn [fst snd]. split_and!; [done|done| |done].
    intros ? [= <-] _ _ [t Ht]. congruence.
  - rewrite (eliminar_equipo_accepted _ _ _ Hname Hsize Ht). cbn [fst snd db].
    split_and!.
    + intros _ Hempty. apply (f_equal size) in Hempty.
      rewrite map_size_delete, Ht, map_size_empty in Hempty. lia.
    + done.
    + intros ? [= <-] _ _ _. cbn [store selected_team].
      unfold new_events. cbn [events]. rewrite drop_app_length.
      split_and!; [done..| |done|done].
      rewrite map_size_delete, Ht. lia.
    + intros ? [= <-] Hnone. congruence.
Qed.

Lemma eliminar_equipo_keeps_a_team_witness :
  db stale_session_two_teams ≠ ∅
  ∧ 1 < size (db stale_session_two_teams)
  ∧ is_Some (db stale_session_two_teams !! "B")
  ∧ store stale_session_two_teams
    = Some {[ "A" := team_A_assigned; "B" := team_A ]}
  ∧ (eliminar_equipo (Some "B") stale_session_two_teams).1 = None
  ∧ db (eliminar_equipo (Some "B") stale_session_two_teams).2 ≠ ∅
  ∧ store (eliminar_equipo (Some "B") stale_session_two_teams).2
    = Some (delete "B" (db stale_session_two_teams))
  ∧ delete "B" (db stale_session_two_teams) = {[ "A" := team_A ]}
  ∧ selected_team (eliminar_equipo (Some "B") stale_session_two_teams).2
    = Some "A".
Proof.
  assert (db stale_session_two_teams ≠ ∅) as Hne.
  { intros Hempty. apply (f_equal (λ m, m !! "A")) in Hempty.
    vm_compute in Hempty. discriminate Hempty. }
  assert (1 < size (db stale_session_two_teams)) as Hsize
    by (vm_compute; lia).
  assert (is_Some (db stale_session_two_teams !! "B")) as HB
    by (exists team_A; reflexivity).
  destruct (eliminar_equipo_keeps_a_team (Some "B") stale_session_two_teams)
    as (Hkeeps & _ & Hdel & _).
  destruct (Hdel "B" eq_refl) as (Hraise & _ & Hstore & _ & Hsel & _);
    [discriminate|exact Hsize|exact HB|].
  split; [exact Hne|]. split; [exact Hsize|]. split; [exact HB|].
  split; [reflexivity|]. split; [exact Hraise|].
  split; [exact (Hkeeps Hne)|]. split; [exact Hstore|].
  split; [vm_compute; reflexivity|exact Hsel].
Defined.

Lemma elem_of_team_names (m : gmap string Team) name :
  name ∈ (map_to_list m).*1 ↔ is_Some (m !! name).
Proof.
  rewrite list_elem_of_fmap. split.
  - intros ([n t] & -> & Hin). apply elem_of_map_to_list in Hin. eauto.
  - intros [t Ht]. exists (name, t). split; [done|].
    by apply elem_of_map_to_list.
Qed.

(** X8.  After the start of a pass over the page the selected team is
    either none or a key of the mapping, and no team is pending as newly
    created: a team just created that is a key becomes the selected one, a
    valid selection is kept otherwise, and an invalid one is dropped.  The
    mapping and the store are not touched. *)
Theorem page_prelude_selects_a_team (s : State) :
  (page_prelude s).1 = Some ()
  ∧ db (page_prelude s).2 = db s
  ∧ store (page_prelude s).2 = store s
  ∧ events (page_prelude s).2 = events s
  ∧ newly_created_team (page_prelude s).2 = None
  ∧ (selected_team (page_prelude s).2 = None
     ∨ ∃ name, selected_team (page_prelude s).2 = Some name
               ∧ is_Some (db s !! name))
  ∧ (∀ name, newly_created_team s = Some name → is_Some (db s !! name) →
             selected_team (page_prelude s).2 = Some name)
  ∧ (∀ name, newly_created_team s = None → selected_team s = Some name →
             is_Some (db s !! name) →
             selected_team (page_prelude s).2 = Some name)
  ∧ (newly_created_team s = None → selected_team s = None →
     selected_team (page_prelude s).2 = None).
Proof.
  unfold page_prelude. cbn [fst snd db store events selected_team
                            newly_created_team].
  split_and!; try done.
  - destruct (newly_created_team s) as [n|]; [|destruct (selected_team s) as [n|]];
      try case_decide; try (by left).
    + right. exists n. split; [done|]. by apply elem_of_team_names.
    + right. exists n. split; [done|]. by apply elem_of_team_names.
  - intros name -> Hin. rewrite decide_True; [done|].
    by apply elem_of_team_names.
  - intros name -> -> Hin. rewrite decide_True; [done|].
    by apply elem_of_team_names.
  - by intros -> ->.
Qed.

Lemma page_prelude_selects_a_team_witness :
  newly_created_team stale_session = None
  ∧ selected_team stale_session = Some "A"
  ∧ is_Some (db stale_session !! "A")
  ∧ selected_team (page_prelude stale_session).2 = Some "A".
Proof.
  assert (is_Some (db stale_session !! "A")) as Hin
    by (exists team_A; reflexivity).
  split; [reflexivity|]. split; [reflexivity|]. split; [exact Hin|].
  destruct (page_prelude_selects_a_team stale_session)
    as (_ & _ & _ & _ & _ & _ & _ & Hkeep & _).
  apply Hkeep; [reflexivity|reflexivity|exact Hin].
Defined.

(** X7.  Creating a team under a fresh, non-empty name adds the team of
    [get_default_team_structure] to the session's mapping and stores that
    mapping; the other teams of the session are as they were, and the next
    pass over the page selects the new team. *)
Theorem crear_equipo_adds_a_default_team (s : State) (name : string)
    (dur : nat) :
  name ≠ "" → db s !! name = None →
  ∃ t, get_default_team_structure name dur = Some t
    ∧ (crear_equipo name dur s).1 = Some Rerun
    ∧ db (crear_equipo name dur s).2 = <[name := t]> (db s)
    ∧ store (crear_equipo name dur s).2 = Some (<[name := t]> (db s))
    ∧ size (db (crear_equipo name dur s).2) = S (size (db s))
    ∧ (∀ other, other ≠ name →
         db (crear_equipo name dur s).2 !! other = db s !! other)
    ∧ selected_team (page_prelude (crear_equipo name dur s).2).2 = Some name
    ∧ newly_created_team (page_prelude (crear_equipo name dur s).2).2 = None.
Proof.
  intros Hname Hfree. eexists. split; [apply default_team_eq|].
  rewrite (crear_equipo_accepted _ _ _ _ Hname Hfree (default_team_eq _ _)).
  cbn [fst snd db store]. split_and!; try done.
  - by apply map_size_insert_None.
  - intros other Hne. by apply lookup_insert_ne.
  - match goal with
    | |- context [page_prelude ?st] =>
        destruct (page_prelude_selects_a_team st)
          as (_ & _ & _ & _ & _ & _ & Hnew & _)
    end.
    apply Hnew; [done|]. cbn [db]. rewrite lookup_insert_eq. eauto.
Qed.

Lemma crear_equipo_adds_a_default_team_witness :
  "B" ≠ "" ∧ db stale_session !! "B" = None
  ∧ (crear_equipo "B" 3 stale_session).1 = Some Rerun
  ∧ selected_team (page_prelude (crear_equipo "B" 3 stale_session).2).2
    = Some "B".
Proof.
  split; [discriminate|]. split; [reflexivity|].
  destruct (crear_equipo_adds_a_default_team stale_session "B" 3)
    as (t & _ & Hrerun & _ & _ & _ & _ & Hsel & _);
    [discriminate|reflexivity|].
  split; [exact Hrerun|exact Hsel].
Defined.

(** ** When the reconciliation raises *)

Lemma for_each_pointwise_None {A : Type} (f : nat → A → option A) a n
    (l : list A) :
  for_each (pointwise f) (seq a n) l = None
  ↔ ∃ i, a ≤ i < a + n ∧ l !! i ≫= f i = None.
Proof.
  revert a l. induction n as [|n IH]; intros a l; simpl.
  { split; [done|]. intros (i & Hi & _). lia. }
  destruct (l !! a ≫= f a) as [y|] eqn:Hy.
  - destruct (l !! a) as [x|] eqn:Hx; simplify_eq/=.
    rewrite (pointwise_intro f a l x y Hx Hy). simpl. rewrite IH. split.
    + intros (i & Hi & Hnone). exists i. split; [lia|].
      by rewrite list_lookup_insert_ne in Hnone by lia.
    + intros (i & Hi & Hnone). destruct (decide (i = a)) as [->|Hne].
      { rewrite Hx in Hnone. simpl in Hnone. congruence. }
      exists i. split; [lia|]. by rewrite list_lookup_insert_ne by lia.
  - assert (pointwise f a l = None) as ->.
    { unfold pointwise. destruct (l !! a) as [x|]; simpl in *; [|done].
      by rewrite Hy. }
    simpl. split; [|done]. intros _. exists a. split; [lia|done].
Qed.

Lemma reconcile_slot_None df d i slot :
  reconcile_slot df d i slot = None
  ↔ Piloto_al_Volante slot ≠ Sin_Asignar
    ∧ ∃ r, record_of df (Piloto_al_Volante slot) = Some r
           ∧ deciding_cell str df r i d = None.
Proof.
  destruct (decide (Piloto_al_Volante slot = Sin_Asignar)) as [Hp|Hp].
  { rewrite reconcile_slot_unassigned by done. split; [done|]. by intros [? _]. }
  destruct (record_of df (Piloto_al_Volante slot)) as [r|] eqn:Hr.
  - rewrite (reconcile_slot_record _ _ _ _ r) by done.
    destruct (deciding_cell str df r i d) as [c|] eqn:Hc; simpl.
    + split; [done|]. intros (_ & r' & [= <-] & Hnone). congruence.
    + split; [|done]. intros _. split; [done|]. by exists r.
  - rewrite reconcile_slot_no_record by done. split; [done|].
    by intros (_ & r & ? & _).
Qed.

(** X12.  The reconciliation raises exactly when, for some hour of the
    race, the schedule has no slot or the slot is assigned to a pilot with a
    record and the table lacks the column of that hour.  In particular it
    raises on a schedule shorter than the race. *)
Theorem reconcile_raises_exactly (df : DataFrame) (h : list Stint) (d : nat) :
  (reconcile df h d = None ↔ ∃ i, i < d ∧ raises_at df h d i)
  ∧ (length h < d → reconcile df h d = None)
  ∧ (∀ i slot r, i < d → 0 < i → i ≠ d - 1 → h !! i = Some slot →
                 Piloto_al_Volante slot ≠ Sin_Asignar →
                 record_of df (Piloto_al_Volante slot) = Some r →
                 str i ∉ columns df → reconcile df h d = None).
Proof.
  assert (reconcile df h d = None ↔ ∃ i, i < d ∧ raises_at df h d i) as Hiff.
  { rewrite reconcile_pointwise, for_each_pointwise_None. unfold raises_at.
    split.
    - intros (i & Hi & Hnone). exists i. split; [lia|].
      destruct (h !! i) as [slot|] eqn:Hslot; [|by left]. right.
      simpl in Hnone. apply reconcile_slot_None in Hnone as (Hp & r & Hr & Hc).
      by exists slot, r.
    - intros (i & Hi & [Hnone|(slot & r & Hslot & Hp & Hr & Hc)]);
        exists i; (split; [lia|]).
      + by rewrite Hnone.
      + rewrite Hslot. simpl. apply reconcile_slot_None. eauto. }
  split_and!; [done| |].
  - intros Hlen. apply Hiff. exists (length h). split; [done|]. left.
    by apply lookup_ge_None.
  - intros i slot r Hi H0 Hlast Hslot Hp Hr Hcol. apply Hiff.
    exists i. split; [done|]. right. exists slot, r. split_and!; [done..|].
    unfold deciding_cell.
    rewrite (proj2 (Nat.eqb_neq i 0)), (proj2 (Nat.eqb_neq i (d - 1))) by lia.
    by rewrite decide_False.
Qed.

Lemma reconcile_raises_exactly_witness :
  length [mkStint "Sam" ""] < 3
  ∧ reconcile (DataFrame_of_records [sam]) [mkStint "Sam" ""] 3 = None
  ∧ reconcile (DataFrame_of_records [sam])
              [unassigned; mkStint "Sam" ""; unassigned] 3 = None.
Proof.
  destruct (reconcile_raises_exactly (DataFrame_of_records [sam])
              [mkStint "Sam" ""] 3) as (_ & Hshort & _).
  destruct (reconcile_raises_exactly (DataFrame_of_records [sam])
              [unassigned; mkStint "Sam" ""; unassigned] 3) as (_ & _ & Hcol).
  split; [simpl; lia|]. split; [apply Hshort; simpl; lia|].
  apply (Hcol 1 (mkStint "Sam" "") sam);
    [lia|lia|simpl; lia|reflexivity|discriminate|reflexivity|].
  vm_compute. intros Hin. inversion Hin.
Defined.

(** X11.  After a reconciliation that completes, no slot of the race that
    is still assigned fails the test of the availability save against the
    updated table, and every slot still assigned is the slot it was. *)
Theorem reconcile_leaves_no_failing_slot (df : DataFrame) (h h' : list Stint)
    (d : nat) :
  reconcile df h d = Some h' →
  ∀ i slot, i < d → h' !! i = Some slot →
    Piloto_al_Volante slot ≠ Sin_Asignar →
    ¬ fails_test df d i slot
    ∧ h !! i = Some slot.
Proof.
  intros Hrun i slot' Hi Hslot' Hp.
  rewrite reconcile_pointwise in Hrun.
  apply for_each_pointwise_Some in Hrun as (_ & Hin & _).
  destruct (Hin i) as [_ Heq]; [lia|]. rewrite Hslot' in Heq.
  destruct (h !! i) as [slot|] eqn:Hslot; simplify_eq/=. symmetry in Heq.
  destruct (decide (Piloto_al_Volante slot = Sin_Asignar)) as [Hs|Hs].
  { rewrite reconcile_slot_unassigned in Heq by done. by simplify_eq. }
  destruct (record_of df (Piloto_al_Volante slot)) as [r|] eqn:Hr.
  - rewrite (reconcile_slot_record _ _ _ _ r) in Heq by done.
    destruct (deciding_cell str df r i d) as [c|] eqn:Hc; simplify_eq/=.
    destruct (truth c) eqn:Ht; [|done]. split; [|done].
    intros (r' & c' & Hr' & Hc' & Ht'). congruence.
  - rewrite reconcile_slot_no_record in Heq by done. simplify_eq.
    split; [|done]. intros (r' & c' & Hr' & _). congruence.
Qed.

Lemma reconcile_leaves_no_failing_slot_witness :
  reconcile (DataFrame_of_records [alex])
            [mkStint "Alex" "a"; mkStint "Alex" "b"; mkStint "Bob" "c"] 3
  = Some [mkStint "Alex" "a"; mkStint Sin_Asignar "b"; mkStint "Bob" "c"]
  ∧ ¬ fails_test (DataFrame_of_records [alex]) 3 0 (mkStint "Alex" "a").
Proof.
  assert (reconcile (DataFrame_of_records [alex])
            [mkStint "Alex" "a"; mkStint "Alex" "b"; mkStint "Bob" "c"] 3
          = Some [mkStint "Alex" "a"; mkStint Sin_Asignar "b";
                  mkStint "Bob" "c"]) as Hrun by reflexivity.
  split; [exact Hrun|].
  apply (reconcile_leaves_no_failing_slot _ _ _ _ Hrun 0 (mkStint "Alex" "a"));
    [lia|reflexivity|discriminate].
Defined.

(** ** Saving a schedule that was not edited *)

Lemma for_each_fixed {A : Type} (body : nat → A → option A) range (acc : A) :
  (∀ i, i ∈ range → body i acc = Some acc) →
  for_each body range acc = Some acc.
Proof.
  induction range as [|i range IH]; intros Hfix; simpl; [done|].
  rewrite Hfix by left. simpl. apply IH. intros j Hj. apply Hfix. by right.
Qed.

Lemma merge_horario_unedited shown fresh d :
  d ≤ length shown →
  merge_horario shown (Piloto_al_Volante <$> shown) (Comentarios <$> shown)
                fresh d = Some fresh.
Proof.
  intros Hd. apply for_each_fixed. intros i Hi. apply elem_of_seq in Hi.
  destruct (lookup_lt_is_Some_2 shown i) as [sh Hsh]; [lia|].
  unfold merge_step. rewrite !list_lookup_fmap, Hsh. simpl.
  by rewrite !bool_decide_eq_false_2 by (intros Hne; by apply Hne).
Qed.

Lemma set_horario_same t : set_horario (horario t) t = t.
Proof. by destruct t. Qed.

(** X18.  Saving a schedule that the user did not edit, on a page that is
    rendered (the selected team has pilot records and its schedule covers the
    race), stores the reloaded document exactly as it was loaded, also when
    another session changed the team's schedule in between: the session ends
    with that document. *)
Theorem unedited_schedule_save_keeps_the_document
    (s : State) (name : string) (team_data latest_team : Team)
    (doc : gmap string Team) :
  selected_team s = Some name → name ≠ "" → db s !! name = Some team_data →
  pilots team_data ≠ [] →
  store s = Some doc → doc !! name = Some latest_team →
  duration (race_config team_data) ≤ length (horario team_data) →
  let r := guardar_horario_asignado
             (Piloto_al_Volante <$> horario team_data)
             (Comentarios <$> horario team_data) s in
  r.1 = Some Rerun ∧ store r.2 = Some doc ∧ db r.2 = doc.
Proof.
  intros Hsel Hname Hteam Hp Hstore Hlatest Hlen.
  rewrite (guardar_horario_saved s name team_data doc latest_team _ _
             (horario latest_team)); [|done..|by apply merge_horario_unedited].
  cbn [fst snd store db]. rewrite set_horario_same.
  by rewrite insert_id.
Qed.

Lemma unedited_schedule_save_keeps_the_document_witness :
  store (guardar_horario_asignado
           (Piloto_al_Volante <$> horario team_A)
           (Comentarios <$> horario team_A) stale_session).2
  = Some {[ "A" := team_A_assigned ]}.
Proof.
  apply (unedited_schedule_save_keeps_the_document stale_session "A" team_A
           team_A_assigned {[ "A" := team_A_assigned ]});
    [reflexivity|discriminate|reflexivity|discriminate|reflexivity|reflexivity
    |simpl; lia].
Defined.

(** ** Records and tables *)

Lemma lookup_list_to_map_keys (g : string → cell) (cols : list string) c :
  (list_to_map ((λ c, (c, g c)) <$> cols) : gmap string cell) !! c
  = if decide (c ∈ cols) then Some (g c) else None.
Proof.
  induction cols as [|x cols IH]; [by rewrite decide_False by apply not_elem_of_nil|].
  rewrite fmap_cons, list_to_map_cons. cbn [fst snd].
  destruct (decide (x = c)) as [->|Hne].
  - rewrite lookup_insert_eq. by rewrite decide_True by left.
  - rewrite lookup_insert_ne, IH by done.
    destruct (decide (c ∈ cols)) as [Hin|Hin].
    + by rewrite decide_True by (by right).
    + rewrite decide_False; [done|].
      intros [?|?]%elem_of_cons; congruence.
Qed.

Lemma elem_of_columns_of_records rs c :
  c ∈ columns (DataFrame_of_records rs)
  ↔ ∃ r, r ∈ rs ∧ is_Some (horas r !! c).
Proof.
  unfold DataFrame_of_records. cbn [columns].
  rewrite elem_of_remove_dups, list_elem_of_bind. split.
  - intros (r & Hc & Hr). exists r. split; [done|].
    apply list_elem_of_fmap in Hc as ([c' v] & -> & Hin).
    apply elem_of_map_to_list in Hin. eauto.
  - intros (r & Hr & [v Hv]). exists r. split; [|done].
    apply list_elem_of_fmap. exists (c, v). split; [done|].
    by apply elem_of_map_to_list.
Qed.

Lemma records_round_trip_uniform (rs : list PilotRow) :
  (∀ r r' c, r ∈ rs → r' ∈ rs →
             is_Some (horas r !! c) → is_Some (horas r' !! c)) →
  to_dict_records (DataFrame_of_records rs) = rs.
Proof.
  intros Hsame. unfold to_dict_records.
  change (rows (DataFrame_of_records rs)) with rs.
  rewrite <- (list_fmap_id rs) at 2. apply list_fmap_ext.
  intros k r Hr. destruct r as [p e t l hs]. unfold id. cbn. f_equal.
  apply map_eq. intros c. rewrite lookup_list_to_map_keys.
  unfold cell_at. cbn [horas].
  destruct (hs !! c) as [v|] eqn:Hv.
  + rewrite decide_True; [done|]. apply elem_of_columns_of_records.
    eexists. split; [by eapply list_elem_of_lookup_2|]. cbn. eauto.
  + rewrite decide_False; [done|].
    intros (r0 & Hr0 & Hc)%elem_of_columns_of_records.
    apply list_elem_of_lookup_2 in Hr.
    destruct (Hsame r0 _ c Hr0 Hr Hc) as [v Hv']. cbn in Hv'. congruence.
Qed.

(** X13.  Building the table from the stored records and turning it back
    into records keeps the number and order of the records and their named
    fields; every record gets an entry for every hour column of the table,
    NaN where it had none.  When all records have the same hour keys the
    records come back as they were. *)
Theorem records_round_trip (rs : list PilotRow) :
  length (to_dict_records (DataFrame_of_records rs)) = length rs
  ∧ (∀ k r, rs !! k = Some r →
       ∃ r', to_dict_records (DataFrame_of_records rs) !! k = Some r'
         ∧ Piloto r' = Piloto r
         ∧ Quiere_Empezar r' = Quiere_Empezar r
         ∧ Quiere_Terminar r' = Quiere_Terminar r
         ∧ Horas_Limite r' = Horas_Limite r
         ∧ ∀ c, horas r' !! c
                = if decide (c ∈ columns (DataFrame_of_records rs))
                  then Some (default NaN (horas r !! c)) else None)
  ∧ (∀ c, c ∈ columns (DataFrame_of_records rs)
          ↔ ∃ r, r ∈ rs ∧ is_Some (horas r !! c))
  ∧ ((∀ r r' c, r ∈ rs → r' ∈ rs →
                is_Some (horas r !! c) → is_Some (horas r' !! c)) →
     to_dict_records (DataFrame_of_records rs) = rs).
Proof.
  split_and!.
  - unfold to_dict_records. by rewrite length_fmap.
  - intros k r Hr. unfold to_dict_records.
    rewrite list_lookup_fmap. change (rows (DataFrame_of_records rs)) with rs.
    rewrite Hr. eexists. split; [done|]. cbn. split_and!; try done.
    intros c. apply lookup_list_to_map_keys.
  - apply elem_of_columns_of_records.
  - apply records_round_trip_uniform.
Qed.

Lemma records_round_trip_witness :
  to_dict_records (DataFrame_of_records [alex; alex]) = [alex; alex]
  ∧ (horas <$> to_dict_records (DataFrame_of_records [alex; sam]))
    = [ {[ "1" := Bool false ]}; {[ "1" := NaN ]} ].
Proof.
  destruct (records_round_trip [alex; alex]) as (_ & _ & _ & Hsame).
  split.
  - apply Hsame. intros r r' c Hr Hr' Hc.
    apply elem_of_cons in Hr as [->|Hr];
      [|apply elem_of_cons in Hr as [->|Hr]; [|inversion Hr]];
      (apply elem_of_cons in Hr' as [->|Hr'];
       [|apply elem_of_cons in Hr' as [->|Hr']; [|inversion Hr']]);
      exact Hc.
  - reflexivity.
Defined.

(** ** What the availability save stores *)

Lemma guardar_configuracion_saved s name team_data doc latest_team edited h' :
  selected_team s = Some name → name ≠ "" → db s !! name = Some team_data →
  pilots team_data ≠ [] →
  store s = Some doc → doc !! name = Some latest_team →
  reconcile
    (rename (reverse_column_map (start_hour (race_config team_data))
                                (duration (race_config team_data))) edited)
    (horario latest_team) (duration (race_config team_data)) = Some h' →
  guardar_configuracion_de_pilotos edited s =
  (Some Rerun,
   after_save
     (<[name := set_pilots_horario
          (to_dict_records
             (rename (reverse_column_map (start_hour (race_config team_data))
                                         (duration (race_config team_data)))
                     edited))
          h' latest_team]> doc)
     (after_load doc s)).
Proof.
  intros Hsel Hname Hteam Hp Hstore Hlatest Hrun.
  unfold guardar_configuracion_de_pilotos.
  rewrite (with_selected_team_reached _ _ _ _ Hsel Hname Hteam Hp).
  unfold mbind, M_bind.
  destruct (load_data_spec s) as (d & -> & Hd). rewrite Hstore in Hd. subst d.
  unfold lift. rewrite Hlatest, Hrun.
  by unfold save_data, update_one, collection, set_db, mret, M_ret, after_save.
Qed.

(** X14.  A completed availability save, on a page that is rendered (the
    selected team has pilot records), stores the reloaded document with one
    team changed: the selected team gets the edited table as its pilots,
    whatever pilots the reloaded document held, the reconciled schedule, and
    keeps the race configuration of the reloaded document; every other team
    of the reloaded document is stored as it was loaded. *)
Theorem availability_save_replaces_the_pilots
    (s : State) (name : string) (team_data latest_team : Team)
    (doc : gmap string Team) (edited : DataFrame) (h' : list Stint) :
  selected_team s = Some name → name ≠ "" → db s !! name = Some team_data →
  pilots team_data ≠ [] →
  store s = Some doc → doc !! name = Some latest_team →
  reconcile
    (rename (reverse_column_map (start_hour (race_config team_data))
                                (duration (race_config team_data))) edited)
    (horario latest_team) (duration (race_config team_data)) = Some h' →
  ∃ doc',
    (guardar_configuracion_de_pilotos edited s).1 = Some Rerun
    ∧ store (guardar_configuracion_de_pilotos edited s).2 = Some doc'
    ∧ db (guardar_configuracion_de_pilotos edited s).2 = doc'
    ∧ (∃ t', doc' !! name = Some t'
             ∧ pilots t'
               = to_dict_records
                   (rename (reverse_column_map
                              (start_hour (race_config team_data))
                              (duration (race_config team_data))) edited)
             ∧ horario t' = h'
             ∧ race_config t' = race_config latest_team)
    ∧ (∀ other, other ≠ name → doc' !! other = doc !! other).
Proof.
  intros Hsel Hname Hteam Hp Hstore Hlatest Hrun.
  rewrite (guardar_configuracion_saved _ _ _ _ _ _ _
             Hsel Hname Hteam Hp Hstore Hlatest Hrun).
  eexists. cbn [fst snd after_save store db]. split_and!; [done..| |].
  - eexists. rewrite lookup_insert_eq. by split_and!.
  - intros other Hne. by apply lookup_insert_ne.
Qed.

Lemma availability_save_replaces_the_pilots_witness :
  ∃ doc',
    store (guardar_configuracion_de_pilotos
             {| columns := ["15:00"];
                rows := [ {| Piloto := "Alex"; Quiere_Empezar := Bool false;
                             Quiere_Terminar := Bool false;
                             Horas_Limite := Some 0%Z;
                             horas := {[ "15:00" := Bool true ]} |} ] |}
             stale_session).2 = Some doc'
    ∧ ∃ t', doc' !! "A" = Some t'
            ∧ horario t' = [mkStint Sin_Asignar ""; unassigned; unassigned]
            ∧ race_config t' = race_config team_A_assigned.
Proof.
  destruct (availability_save_replaces_the_pilots stale_session "A" team_A
              team_A_assigned {[ "A" := team_A_assigned ]}
              {| columns := ["15:00"];
                 rows := [ {| Piloto := "Alex"; Quiere_Empezar := Bool false;
                              Quiere_Terminar := Bool false;
                              Horas_Limite := Some 0%Z;
                              horas := {[ "15:00" := Bool true ]} |} ] |}
              [mkStint Sin_Asignar ""; unassigned; unassigned])
    as (doc' & _ & Hstore & _ & (t' & Ht' & _ & Hh & Hrc) & _);
    [reflexivity|discriminate|reflexivity|discriminate|reflexivity
    |reflexivity|reflexivity|].
  exists doc'. split; [exact Hstore|]. exists t'.
  split; [exact Ht'|]. split; [exact Hh|exact Hrc].
Defined.

(** ** The option preselected for an hour *)

Lemma index_elem_of x l :
  x ∈ l → ∃ i, index x l = Some i ∧ l !! i = Some x.
Proof.
  intros Hx. unfold index.
  destruct (list_find_elem_of (λ y, y = x) l x Hx eq_refl) as [[i y] Hf].
  rewrite Hf. apply list_find_Some in Hf as (Hi & -> & _). by exists i.
Qed.

Lemma index_not_elem_of x l : x ∉ l → index x l = None.
Proof.
  intros Hx. unfold index.
  destruct (list_find (λ y, y = x) l) as [[i y]|] eqn:Hf; [|done].
  apply list_find_Some in Hf as (Hi & -> & _).
  by apply list_elem_of_lookup_2 in Hi.
Qed.

Lemma preselected_cases df start i d actual :
  preselected (lista_pilotos_filtrada df start i d) actual
  = Some (if decide (actual ∈ lista_pilotos_filtrada df start i d)
          then actual else Sin_Asignar).
Proof.
  unfold preselected, default_index. case_decide as Hin.
  - destruct (index_elem_of _ _ Hin) as (k & -> & Hk). done.
  - by rewrite index_not_elem_of.
Qed.

(** X10.  A select box that the user does not touch, with the comment left
    as shown: if the pilot shown for that hour is 'Sin Asignar' or is still
    offered for the hour, the save leaves the slot of the reloaded schedule
    as it is; if that pilot is no longer offered, the box shows
    'Sin Asignar' and the save writes 'Sin Asignar' over the reloaded
    slot. *)
Theorem untouched_select_box (df : DataFrame) (start : Z) (i d : nat)
    (shown : list Stint) (nuevas nuevos : list string)
    (h : list Stint) (sh fresh : Stint) :
  shown !! i = Some sh → h !! i = Some fresh →
  nuevas !! i = preselected (lista_pilotos_filtrada df start i d)
                            (Piloto_al_Volante sh) →
  nuevos !! i = Some (Comentarios sh) →
  (Piloto_al_Volante sh = Sin_Asignar
   ∨ Piloto_al_Volante sh ∈ pilotos_disponibles df start i d →
   merge_step shown nuevas nuevos i h = Some h)
  ∧ (Piloto_al_Volante sh ≠ Sin_Asignar →
     Piloto_al_Volante sh ∉ pilotos_disponibles df start i d →
     merge_step shown nuevas nuevos i h
     = Some (<[i := set_Piloto_al_Volante Sin_Asignar fresh]> h)).
Proof.
  intros Hsh Hfresh Hnueva Hcom. rewrite preselected_cases in Hnueva.
  unfold merge_step. rewrite Hsh, Hnueva, Hcom. cbn [mbind option_bind].
  split.
  - intros Hin. rewrite decide_True.
    2:{ unfold lista_pilotos_filtrada. destruct Hin as [->|Hin];
          [left|by right]. }
    rewrite !bool_decide_eq_false_2 by (intros Hne; by apply Hne). done.
  - intros Hs Hout. rewrite decide_False.
    2:{ unfold lista_pilotos_filtrada.
        intros [?|?]%elem_of_cons; [congruence|done]. }
    rewrite (bool_decide_eq_true_2 (Sin_Asignar ≠ _))
      by (intros Heq; apply Hs; symmetry; exact Heq).
    rewrite Hfresh. cbn [mbind option_bind].
    by rewrite bool_decide_eq_false_2 by (intros Hne; by apply Hne).
Qed.

Lemma untouched_select_box_witness :
  merge_step [mkStint "Alex" "x"; mkStint "Alex" "y"; unassigned]
             [Sin_Asignar; Sin_Asignar; Sin_Asignar] ["x"; "y"; ""] 1
             [mkStint "Alex" "x"; mkStint "Alex" "z"; unassigned]
  = Some [mkStint "Alex" "x"; mkStint Sin_Asignar "z"; unassigned].
Proof.
  destruct (untouched_select_box
              {| columns := ["15:00"];
                 rows := [ {| Piloto := "Alex"; Quiere_Empezar := Bool true;
                              Quiere_Terminar := Bool false;
                              Horas_Limite := Some 0%Z;
                              horas := {[ "15:00" := Bool false ]} |} ] |}
              14 1 3
              [mkStint "Alex" "x"; mkStint "Alex" "y"; unassigned]
              [Sin_Asignar; Sin_Asignar; Sin_Asignar] ["x"; "y"; ""]
              [mkStint "Alex" "x"; mkStint "Alex" "z"; unassigned]
              (mkStint "Alex" "y") (mkStint "Alex" "z"))
    as [_ Hout]; [reflexivity..|].
  apply Hout; [discriminate|].
  vm_compute. intros Hin. inversion Hin.
Defined.

(** ** The order and the total of the summary *)

#[local] Instance more_frequent_trans : Transitive more_frequent.
Proof. unfold more_frequent. intros x y z ??. lia. Qed.

#[local] Instance more_frequent_total : Total more_frequent.
Proof. unfold more_frequent. intros x y. lia. Qed.

Lemma StronglySorted_filter {A : Type} (R : relation A) (P : A → Prop)
    `{∀ x, Decision (P x)} (l : list A) :
  StronglySorted R l → StronglySorted R (filter P l).
Proof.
  induction 1 as [|x l Hl IH Hx]; [constructor|].
  rewrite filter_cons. case_decide; [|done].
  constructor; [done|]. apply Forall_forall. intros y Hy.
  apply list_elem_of_filter in Hy as [_ Hy].
  by eapply (proj1 (Forall_forall _ _) Hx).
Qed.

Lemma total_stints_Permutation l1 l2 :
  l1 ≡ₚ l2 → total_stints l1 = total_stints l2.
Proof.
  induction 1 as [|x l1 l2 _ IH|x y l|l1 l2 l3 _ IH1 _ IH2]; simpl;
    [done|by rewrite IH|lia|congruence].
Qed.

Lemma count_split (P : string → Prop) `{∀ x, Decision (P x)} v
    (l : list string) :
  ¬ P v →
  length (filter (λ x, x = v ∨ P x) l)
  = occurrences v l + length (filter P l).
Proof.
  intros Hv. unfold occurrences.
  induction l as [|x l IH]; [done|]. rewrite !filter_cons.
  destruct (decide (x = v)) as [->|Hne].
  - rewrite decide_True by auto. rewrite (decide_False (P:=P v)) by done.
    simpl. by rewrite IH.
  - destruct (decide (P x)) as [Hp|Hp].
    + rewrite decide_True by auto. simpl. rewrite IH. lia.
    + rewrite decide_False by tauto. done.
Qed.

Lemma total_of_counts l vs :
  NoDup vs →
  total_stints (filter (λ vc, vc.1 ≠ Sin_Asignar)
                       ((λ v, (v, occurrences v l)) <$> vs))
  = length (filter (λ x, x ≠ Sin_Asignar ∧ x ∈ vs) l).
Proof.
  induction 1 as [|v vs Hv Hnd IH].
  { simpl. symmetry. apply length_zero_iff_nil, filter_nil_Forall.
    apply Forall_forall. intros x _ [_ Hx]. by apply elem_of_nil in Hx. }
  rewrite fmap_cons, filter_cons. cbn [fst].
  destruct (decide (v ≠ Sin_Asignar)) as [Hs|Hs].
  - cbn [total_stints foldr snd]. fold (total_stints
      (filter (λ vc, vc.1 ≠ Sin_Asignar) ((λ v, (v, occurrences v l)) <$> vs))).
    rewrite IH.
    rewrite <- (count_split (λ x, x ≠ Sin_Asignar ∧ x ∈ vs) v l) by tauto.
    f_equal. apply list_filter_iff. intros x. rewrite elem_of_cons. split.
    + intros [->|[? ?]]; auto.
    + intros [? [->|?]]; auto.
  - rewrite IH. f_equal. apply list_filter_iff. intros x.
    rewrite elem_of_cons. split; [tauto|].
    intros [Hx [->|?]]; [|done]. by destruct Hs.
Qed.

Lemma filter_ext_in {A : Type} (P Q : A → Prop) `{∀ x, Decision (P x)}
    `{∀ x, Decision (Q x)} (l : list A) :
  (∀ x, x ∈ l → (P x ↔ Q x)) → filter P l = filter Q l.
Proof.
  induction l as [|x l IH]; intros Hext; [done|].
  rewrite !filter_cons, IH by (intros y Hy; apply Hext; by right).
  destruct (decide (P x)) as [Hp|Hp].
  - rewrite decide_True; [done|]. apply Hext; [left|done].
  - rewrite decide_False; [done|]. intros Hq. apply Hp, Hext; [left|done].
Qed.

(** X15.  The summary lists the pilots by decreasing number of stints, and
    its counts add up to the number of assigned hours (the assignments other
    than 'Sin Asignar'). *)
Theorem summary_sorted_and_complete (asignaciones : list string) :
  StronglySorted more_frequent (resumen_df asignaciones)
  ∧ total_stints (resumen_df asignaciones)
    = length (filter (λ x, x ≠ Sin_Asignar) asignaciones).
Proof.
  split.
  - unfold resumen_df, value_counts.
    apply StronglySorted_filter, StronglySorted_merge_sort; apply _.
  - unfold resumen_df, value_counts.
    rewrite (total_stints_Permutation _
               (filter (λ vc, vc.1 ≠ Sin_Asignar)
                  ((λ v, (v, occurrences v asignaciones))
                     <$> remove_dups asignaciones))).
    2:{ apply filter_Permutation, merge_sort_Permutation. }
    rewrite total_of_counts by apply NoDup_remove_dups.
    f_equal. apply filter_ext_in. intros x Hx.
    rewrite elem_of_remove_dups. tauto.
Qed.

Lemma record_of_elem_of df name r :
  record_of df name = Some r → r ∈ rows df ∧ Piloto r = name.
Proof.
  unfold record_of, rows_of_pilot, boolean_index. cbn [rows].
  rewrite (select_mask _ (λ r, Piloto r = name))
    by (intros r0; apply bool_decide_eq_true).
  intros Hhead. apply head_Some_elem_of in Hhead.
  apply list_elem_of_filter in Hhead. tauto.
Qed.

(** X16.  No warning is shown when no record of the table has a limit
    above 0 (0 and blank mean no limit), when no assigned pilot exceeds the
    limit of their record, or when no assigned pilot has a record. *)
Theorem no_warning_without_an_exceeded_limit (df : DataFrame)
    (asignaciones : list string) :
  ((∀ r c, r ∈ rows df → Horas_Limite r = Some c → (c ≤ 0)%Z) →
   alertas df asignaciones = [])
  ∧ ((∀ name r c, name ∈ asignaciones → record_of df name = Some r →
                  Horas_Limite r = Some c →
                  (Z.of_nat (occurrences name asignaciones) ≤ c)%Z) →
     alertas df asignaciones = [])
  ∧ ((∀ name, name ∈ asignaciones → name ≠ Sin_Asignar →
              record_of df name = None) →
     alertas df asignaciones = []).
Proof.
  assert (∀ P : Prop, (∀ a, a ∈ alertas df asignaciones → P → False) →
                      P → alertas df asignaciones = []) as Hnil.
  { intros P Hno HP. destruct (alertas df asignaciones) as [|a l] eqn:Ha;
      [done|]. exfalso. apply (Hno a); [left|done]. }
  split_and!; apply Hnil; intros a Ha Hall;
    apply elem_of_alertas in Ha as (Hs & Hk & r & Hr & Hl & Hb).
  - apply record_of_elem_of in Hr as [Hr _].
    pose proof (Hall r _ Hr Hl). lia.
  - assert (piloto_nombre a ∈ asignaciones) as Hin
      by (apply occurrences_pos; lia).
    pose proof (Hall _ r _ Hin Hr Hl). lia.
  - assert (piloto_nombre a ∈ asignaciones) as Hin
      by (apply occurrences_pos; lia).
    rewrite (Hall _ Hin Hs) in Hr. discriminate.
Qed.

Lemma no_warning_without_an_exceeded_limit_witness :
  alertas (DataFrame_of_records [alex]) ["Alex"; "Alex"; "Sam"] = [].
Proof.
  destruct (no_warning_without_an_exceeded_limit (DataFrame_of_records [alex])
              ["Alex"; "Alex"; "Sam"]) as (Hzero & _ & _).
  apply Hzero. intros r c Hr Hc.
  apply elem_of_cons in Hr as [->|Hr]; [|inversion Hr].
  injection Hc as <-. lia.
Defined.

(** ** The table shown and saved without an edit *)

Lemma kmap_lookup_Some_inv (f : string → string) (m : gmap string cell) k v :
  (kmap f m : gmap string cell) !! k = Some v →
  ∃ i, k = f i ∧ m !! i = Some v.
Proof.
  unfold kmap. intros Hk. apply elem_of_list_to_map_2 in Hk.
  apply list_elem_of_fmap in Hk as ([i v'] & [= -> ->] & Hin).
  exists i. split; [done|]. by apply elem_of_map_to_list.
Qed.

Lemma kmap_lookup_on (f : string → string) (m : gmap string cell) i :
  (∀ i j, is_Some (m !! i) → is_Some (m !! j) → f i = f j → i = j) →
  is_Some (m !! i) →
  (kmap f m : gmap string cell) !! f i = m !! i.
Proof.
  intros Hinj [v Hv]. rewrite Hv. unfold kmap.
  apply elem_of_list_to_map_1.
  - rewrite <- list_fmap_compose.
    rewrite (list_fmap_ext _ (f ∘ fst) (map_to_list m)) by (by intros ? []).
    rewrite list_fmap_compose.
    apply NoDup_fmap_2_strong; [|apply NoDup_fst_map_to_list].
    intros x y Hx Hy. apply Hinj.
    + apply list_elem_of_fmap in Hx as ([? ?] & -> & Hx).
      apply elem_of_map_to_list in Hx. eauto.
    + apply list_elem_of_fmap in Hy as ([? ?] & -> & Hy).
      apply elem_of_map_to_list in Hy. eauto.
  - apply list_elem_of_fmap. exists (i, v). split; [done|].
    by apply elem_of_map_to_list.
Qed.

Lemma rename_renamed m df :
  rename m df
  = {| columns := renamed m <$> columns df;
       rows := (λ r, {| Piloto := Piloto r;
                        Quiere_Empezar := Quiere_Empezar r;
                        Quiere_Terminar := Quiere_Terminar r;
                        Horas_Limite := Horas_Limite r;
                        horas := kmap (renamed m) (horas r) |}) <$> rows df |}.
Proof. done. Qed.

Lemma shown_str start d h :
  h < d → renamed (column_map start d) (str h) = hour_label start h.
Proof. intros Hh. unfold renamed. by rewrite column_map_lookup. Qed.

Lemma stored_label start d h :
  d ≤ 24 → h < d →
  renamed (reverse_column_map start d) (hour_label start h) = str h.
Proof. intros Hd Hh. unfold renamed. by rewrite reverse_column_map_lookup. Qed.

Lemma kmap_shown_stored start d (m : gmap string cell) :
  d ≤ 24 →
  (∀ c, is_Some (m !! c) → ∃ h, h < d ∧ c = str h) →
  kmap (renamed (reverse_column_map start d))
       (kmap (renamed (column_map start d)) m : gmap string cell) = m.
Proof.
  intros Hd Hkeys.
  set (shown := renamed (column_map start d)).
  set (stored := renamed (reverse_column_map start d)).
  assert (∀ i j, is_Some (m !! i) → is_Some (m !! j) →
                 shown i = shown j → i = j) as Hinj.
  { intros i j Hi Hj. destruct (Hkeys i Hi) as (h & Hh & ->).
    destruct (Hkeys j Hj) as (h' & Hh' & ->). unfold shown.
    rewrite !shown_str by done. intros Heq. f_equal.
    apply (hour_label_inj start); [lia..|done]. }
  assert (∀ k, is_Some ((kmap shown m : gmap string cell) !! k) →
               ∃ h, h < d ∧ k = hour_label start h
                    ∧ (kmap shown m : gmap string cell) !! k = m !! str h)
    as Hkeys'.
  { intros k [v Hv]. pose proof Hv as Hv'.
    apply kmap_lookup_Some_inv in Hv' as (i & -> & Hi).
    destruct (Hkeys i) as (h & Hh & ->); [by eauto|].
    exists h. split; [done|]. split; [by apply shown_str|].
    apply kmap_lookup_on; [done|by eauto]. }
  assert (∀ i j, is_Some ((kmap shown m : gmap string cell) !! i) →
                 is_Some ((kmap shown m : gmap string cell) !! j) →
                 stored i = stored j → i = j) as Hinj'.
  { intros i j Hi Hj. destruct (Hkeys' i Hi) as (h & Hh & -> & _).
    destruct (Hkeys' j Hj) as (h' & Hh' & -> & _). unfold stored.
    rewrite !stored_label by done. intros Heq.
    by apply (inj pretty) in Heq as ->. }
  apply map_eq. intros k.
  destruct (m !! k) as [v|] eqn:Hk.
  - destruct (Hkeys k) as (h & Hh & ->); [by eauto|].
    assert ((kmap shown m : gmap string cell) !! hour_label start h = Some v)
      as Hshown.
    { rewrite <- (shown_str start d h) by done. fold shown.
      rewrite kmap_lookup_on; [done|done|by eauto]. }
    rewrite <- (stored_label start d h) at 1 by done. fold stored.
    rewrite kmap_lookup_on; [done|done|by eauto].
  - destruct (kmap stored (kmap shown m) !! k) as [v|] eqn:Hv; [|done].
    apply kmap_lookup_Some_inv in Hv as (k' & -> & Hk').
    destruct (Hkeys' k') as (h & Hh & -> & Heq); [by eauto|].
    unfold stored in Hk. rewrite stored_label in Hk by done.
    rewrite Heq in Hk'. congruence.
Qed.

Lemma rename_round_trip start d (df : DataFrame) :
  d ≤ 24 →
  (∀ c, c ∈ columns df → ∃ h, h < d ∧ c = str h) →
  (∀ r c, r ∈ rows df → is_Some (horas r !! c) → ∃ h, h < d ∧ c = str h) →
  rename (reverse_column_map start d) (display_config_df start d df) = df.
Proof.
  intros Hd Hcols Hrows. unfold display_config_df. rewrite !rename_renamed.
  destruct df as [cols rs]. cbn [columns rows] in *. f_equal.
  - rewrite <- list_fmap_compose. rewrite <- (list_fmap_id cols) at 2.
    apply list_fmap_ext. intros k c Hc. unfold id. cbn [compose].
    apply list_elem_of_lookup_2 in Hc.
    destruct (Hcols c Hc) as (h & Hh & ->).
    rewrite shown_str by done. by apply stored_label.
  - rewrite <- list_fmap_compose. rewrite <- (list_fmap_id rs) at 2.
    apply list_fmap_ext. intros k r Hr. unfold id. cbn [compose].
    apply list_elem_of_lookup_2 in Hr.
    destruct r as [p e t l hs]. cbn [Piloto Quiere_Empezar Quiere_Terminar
                                      Horas_Limite horas]. f_equal.
    apply kmap_shown_stored; [done|]. intros c Hc. by apply (Hrows _ c Hr).
Qed.

(** X19.  For a race of at most 24 hours and stored records whose hour keys
    are the stored names of the hours of the race: showing the table with
    its labels and renaming the columns back gives the table again, and the
    records saved from an unedited table are the stored records. *)
Theorem unedited_table_round_trip (start : Z) (d : nat) (rs : list PilotRow) :
  d ≤ 24 →
  (∀ r c, r ∈ rs → is_Some (horas r !! c) ↔ ∃ h, h < d ∧ c = str h) →
  rename (reverse_column_map start d)
         (display_config_df start d (DataFrame_of_records rs))
  = DataFrame_of_records rs
  ∧ to_dict_records
      (rename (reverse_column_map start d)
              (display_config_df start d (DataFrame_of_records rs)))
    = rs.
Proof.
  intros Hd Hkeys.
  assert (rename (reverse_column_map start d)
                 (display_config_df start d (DataFrame_of_records rs))
          = DataFrame_of_records rs) as Hrt.
  { apply rename_round_trip; [done| |].
    - intros c (r & Hr & Hc)%elem_of_columns_of_records. by apply (Hkeys r).
    - intros r c Hr Hc. by apply (Hkeys r). }
  split; [done|]. rewrite Hrt. apply records_round_trip_uniform.
  intros r r' c Hr Hr' Hc. apply (Hkeys r'); [done|]. by apply (Hkeys r).
Qed.

Lemma unedited_table_round_trip_witness :
  3 ≤ 24
  ∧ to_dict_records
      (rename (reverse_column_map 23 3)
              (display_config_df 23 3
                 (DataFrame_of_records
                    [ {| Piloto := "Alex"; Quiere_Empezar := Bool true;
                         Quiere_Terminar := Bool false;
                         Horas_Limite := Some 0%Z;
                         horas := all_hours 3 |} ])))
    = [ {| Piloto := "Alex"; Quiere_Empezar := Bool true;
           Quiere_Terminar := Bool false; Horas_Limite := Some 0%Z;
           horas := all_hours 3 |} ].
Proof.
  split; [lia|].
  apply (unedited_table_round_trip 23 3); [lia|].
  intros r c Hr. apply elem_of_cons in Hr as [->|Hr]; [|inversion Hr].
  cbn [horas]. split.
  - intros [v Hv]. apply all_hours_inv in Hv as [_ Hh]. exact Hh.
  - intros (h & Hh & ->). exists (Bool true). by apply all_hours_lookup.
Defined.
